(** * mantra-cli, [lib/utils.js]: configuration, templates and file edits

    A shallow embedding of the utility module of mantra-cli and the
    properties of its configuration resolution, template rendering and
    marker editing.

    The module is a thin layer over Node's [fs], lodash, js-yaml and editer.
    lodash's [clone], [assign] and the [${...}] fragment of [template] are
    written out below; the libraries whose behaviour the module does not
    determine (the YAML codec, editer, the scope surrounding a compiled
    template) are the fields of the class [Libraries], so every theorem
    holds whatever they do. *)

From Stdlib Require Import Ascii.
From stdpp Require Import gmap strings list fin_maps pretty.

Set Warnings "-register-all".
Local Open Scope string_scope.

(** ** JavaScript values, errors and completions *)

Module Js.

(** The values a YAML document or a configuration object can hold. Numbers are
    the integers JavaScript prints in plain decimal notation. *)
Inductive value :=
| VUndefined
| VNull
| VBool (b : bool)
| VNumber (n : Z)
| VString (s : string)
| VArray (l : list value)
| VObject (o : gmap string value).

(** An error object: [e.name], [e.code] (set by system errors such as
    [ENOENT]; [None] when the property is missing) and [e.message]. *)
Record JsError := mkError {
  err_name : string;
  err_code : option string;
  err_message : string
}.

(** How a call completes: it returns or it throws. *)
Inductive outcome (A : Type) :=
| Return (a : A)
| Throw (e : JsError).
Arguments Return {A} a.
Arguments Throw {A} e.

(** [if (v)]: the falsy values are [undefined], [null], [false], [0] and the
    empty string. *)
Definition truthy (v : value) : bool :=
  match v with
  | VUndefined | VNull => false
  | VBool b => b
  | VNumber n => negb (Z.eqb n 0)
  | VString s => negb (String.eqb s "")
  | VArray _ | VObject _ => true
  end.

(** [Array.prototype.join(',')] over already converted elements. *)
Definition join_comma (parts : list string) : string :=
  String.concat "," parts.

(** [String(v)] for the arguments of a command line. An array joins its
    elements with commas, [null] and [undefined] elements giving the empty
    string. Numbers are taken in the range that prints in plain decimal, and
    objects to convert through [Object.prototype.toString]; the conversion
    that rendering a template needs is [Lodash.appended]. *)
Fixpoint to_String (v : value) : string :=
  match v with
  | VUndefined => "undefined"
  | VNull => "null"
  | VBool true => "true"
  | VBool false => "false"
  | VNumber n => pretty n
  | VString s => s
  | VArray l =>
      join_comma
        (map (fun x => match x with
                       | VUndefined | VNull => ""
                       | _ => to_String x
                       end) l)
  | VObject _ => "[object Object]"
  end.

(** The string keys of an array-like: ["0"], ["1"], ... *)
Definition indexed (l : list value) : gmap string value :=
  list_to_map (imap (fun i x => (pretty i, x)) l).

(** The characters of an ASCII string, as one-character strings. *)
Definition chars (s : string) : list value :=
  map (fun a => VString (String a EmptyString)) (String.list_ascii_of_string s).

Definition is_ascii (a : Ascii.ascii) : bool :=
  Nat.leb (Ascii.nat_of_ascii a) 127.

Definition ascii_only (s : string) : bool :=
  forallb is_ascii (String.list_ascii_of_string s).

Definition in_range (lo hi : nat) (a : Ascii.ascii) : bool :=
  Nat.leb lo (Ascii.nat_of_ascii a) && Nat.leb (Ascii.nat_of_ascii a) hi.

(** Are the bytes well-formed UTF-8 (the byte sequences of the Unicode
    standard, table 3-7)? *)
Fixpoint utf8_valid (s : string) : bool :=
  match s with
  | EmptyString => true
  | String a r =>
      if in_range 0 127 a then utf8_valid r
      else if in_range 194 223 a then
        match r with
        | String b r1 => in_range 128 191 b && utf8_valid r1
        | _ => false
        end
      else if in_range 224 239 a then
        match r with
        | String b (String c r2) =>
            (if in_range 224 224 a then in_range 160 191 b
             else if in_range 237 237 a then in_range 128 159 b
             else in_range 128 191 b)
            && in_range 128 191 c && utf8_valid r2
        | _ => false
        end
      else if in_range 240 244 a then
        match r with
        | String b (String c (String d r3)) =>
            (if in_range 240 240 a then in_range 144 191 b
             else if in_range 244 244 a then in_range 128 143 b
             else in_range 128 191 b)
            && in_range 128 191 c && in_range 128 191 d && utf8_valid r3
        | _ => false
        end
      else false
  end.

(** The values that convert to a string without a call of their own. *)
Definition is_scalar (v : value) : bool :=
  match v with
  | VArray _ | VObject _ => false
  | _ => true
  end.

End Js.
Export Js.

(** ** The process: the object heap and the file system *)

Module Node.

(** The file system as the process observes it. [fs_lstat p] is the error
    [fs.lstatSync p] throws ([None]: it succeeds); [fs_read p] is what reading
    [p] gives; [fs_write p] is the error opening [p] for writing throws.
    A JavaScript string is written as its UTF-8 bytes, so for a file that is
    well-formed UTF-8 the bytes read and the text read are the same Rocq
    string; the calls that read with an encoding take the file to be so, and
    [_.template], which is handed the bytes, decodes them ([utf8_decode]).
    A path is the name it is written with. *)
Record FS := mkFS {
  fs_lstat : string -> option JsError;
  fs_read : string -> outcome string;
  fs_write : string -> option JsError
}.

(** The state of the process: the objects on the heap, by reference, the file
    system, and the arguments of every [fs.writeFileSync] call so far (latest
    first). *)
Record World := mkWorld {
  heap : gmap nat (gmap string value);
  disk : FS;
  written : list (string * value)
}.

(** Computations: state that survives a throw. *)
Definition M (A : Type) : Type := World -> outcome A * World.

Definition ret {A} (a : A) : M A := fun w => (Return a, w).

Definition throw {A} (e : JsError) : M A := fun w => (Throw e, w).

Definition bind {A B} (m : M A) (k : A -> M B) : M B :=
  fun w =>
    match m w with
    | (Return a, w') => k a w'
    | (Throw e, w') => (Throw e, w')
    end.

(** [try { m } catch (e) { h e }] *)
Definition try_catch {A} (m : M A) (h : JsError -> M A) : M A :=
  fun w =>
    match m w with
    | (Return a, w') => (Return a, w')
    | (Throw e, w') => h e w'
    end.

(** A pure call that may throw. *)
Definition lift {A} (r : outcome A) : M A := fun w => (r, w).

End Node.
Export Node.

Notation "'let*' x ':=' m 'in' k" := (bind m (fun x => k))
  (at level 10, x name, m at level 100, k at level 200).

Module Fs.

Definition lstatSync (path : string) : M unit :=
  fun w =>
    match fs_lstat (disk w) path with
    | None => (Return tt, w)
    | Some e => (Throw e, w)
    end.

(** A [Buffer]: the bytes read. *)
Record Buffer := mkBuffer { bytes : string }.

(** [fs.readFileSync(path, {encoding: 'utf-8'})]: the decoded text. *)
Definition readFileSync_utf8 (path : string) : M string :=
  fun w => (fs_read (disk w) path, w).

(** [fs.readFileSync(path)]: without an encoding the result is a [Buffer]
    that holds the bytes of the file. *)
Definition readFileSync (path : string) : M Buffer :=
  let* s := readFileSync_utf8 path in ret (mkBuffer s).

(** [path] now holds [s]: that name reads as [s] and is there. What the
    other names give is what [d] gives. *)
Definition overwrite (path s : string) (d : FS) : FS :=
  {| fs_lstat := fun p => if String.eqb p path then None else fs_lstat d p;
     fs_read := fun p => if String.eqb p path then Return s else fs_read d p;
     fs_write := fs_write d |}.

End Fs.

(** ** The libraries the module calls *)

(** What the module takes from its environment without determining it.
    - [yaml_safeLoad], [yaml_safeDump]: js-yaml's parser and printer; both throw
      a [YAMLException] on input they reject.
    - [editer_insert string target options], [editer_remove string target
      options]: editer's two operations on the text [target]. What they return
      or throw when [options] locates nothing is editer's choice.
    - [enclosing_scope]: the bindings an identifier of a compiled template
      resolves to when the data object has no such own property: the members
      of [Object.prototype], the parameters and locals of the compiled
      function, lodash's imports and the globals.
    - [template_beyond]: the value of [_.template] on a template outside the
      fragment written out in [Lodash] ([<% %>] delimiters, placeholders other
      than a variable or [typeof] of a variable). Such a template runs
      JavaScript of its own; only its value is followed here.
    - [write_coerce]: what [fs.writeFileSync] makes of data that is neither a
      string nor a [Buffer] (older Node versions write [String(data)], newer
      ones throw a [TypeError]).
    - [write_fault path text d]: a failure of [fs.writeFileSync] after [path]
      was opened, and so truncated: the error and the file system it leaves
      ([None]: the write goes through).
    - [write_aliases path text d]: what a write to [path] makes of the file
      system under the other names of the same file (links, [./p] for [p]).
    - [Number_toString_beyond]: how a number outside the safe integers prints.
    - [utf8_decode_beyond]: the text [Buffer.prototype.toString] gives for
      bytes that are not well-formed UTF-8.
    - [String_units_beyond]: the UTF-16 units of a string that is not ASCII,
      as one-unit strings. *)
Class Libraries := {
  yaml_safeLoad : string -> outcome value;
  yaml_safeDump : gmap string value -> outcome string;
  editer_options : Type;
  editer_insert : string -> string -> editer_options -> outcome value;
  editer_remove : string -> string -> editer_options -> outcome value;
  enclosing_scope : string -> option value;
  template_beyond : string -> gmap string value -> outcome string;
  write_coerce : value -> outcome string;
  write_fault : string -> string -> FS -> option (JsError * FS);
  write_aliases : string -> string -> FS -> FS;
  Number_toString_beyond : Z -> string;
  utf8_decode_beyond : string -> string;
  String_units_beyond : string -> list value
}.

Module FsWrite.
Import Fs.

Section WithLibraries.
Context `{Libraries}.

(** The text [fs.writeFileSync] stores for [data]. *)
Definition write_data (data : value) : outcome string :=
  match data with
  | VString s => Return s
  | _ => write_coerce data
  end.

(** [fs.writeFileSync(path, data)]: the call is recorded, the data converted,
    the file opened, which truncates it, and written in full. A failure
    before the file is open leaves the file system as it was; a failure after
    leaves what [write_fault] says. *)
Definition writeFileSync (path : string) (data : value) : M unit :=
  fun w =>
    let w1 := {| heap := heap w; disk := disk w;
                 written := (path, data) :: written w |} in
    match write_data data with
    | Throw e => (Throw e, w1)
    | Return s =>
        match fs_write (disk w) path with
        | Some e => (Throw e, w1)
        | None =>
            match write_fault path s (disk w) with
            | Some (e, d') =>
                (Throw e,
                 {| heap := heap w1; disk := d'; written := written w1 |})
            | None =>
                (Return tt,
                 {| heap := heap w1;
                    disk := overwrite path s (write_aliases path s (disk w1));
                    written := written w1 |})
            end
        end
    end.

End WithLibraries.
End FsWrite.

(** ** lodash *)

Module Lodash.

Section Objects.
Context `{Libraries}.

(** The own enumerable string-keyed properties of a value, as [Object.keys]
    sees them after [Object(v)]. A string has its UTF-16 units under their
    indices; for an ASCII string these are its characters. *)
Definition own_props (v : value) : gmap string value :=
  match v with
  | VObject o => o
  | VArray l => indexed l
  | VString s =>
      indexed (if ascii_only s then chars s else String_units_beyond s)
  | _ => ∅
  end.

(** [_.clone(object)] on a plain object: a new object with the same own
    properties (a shallow copy). *)
Definition clone (l : nat) : M nat :=
  fun w =>
    let l' := fresh (dom (heap w)) in
    (Return l',
     {| heap := <[l' := heap w !!! l]> (heap w); disk := disk w;
        written := written w |}).

(** [_.assign(object, source)]: the own enumerable properties of a truthy
    [source] are written into [object] itself, which is returned. *)
Definition assign (l : nat) (source : value) : M nat :=
  fun w =>
    (Return l,
     if truthy source
     then {| heap := alter (fun o => own_props source ∪ o) l (heap w);
             disk := disk w; written := written w |}
     else w).

End Objects.

(** *** [_.template], the [${variable}] fragment *)

(** A scanned template: literal text and the expressions of placeholders. *)
Inductive segment :=
| Text (s : string)
| Interpolate (e : string).

(** Does the string hold two given characters in a row? *)
Fixpoint has_pair (a b : Ascii.ascii) (s : string) : bool :=
  match s with
  | String c ((String d _) as r) =>
      (Ascii.eqb c a && Ascii.eqb d b) || has_pair a b r
  | _ => false
  end.

Fixpoint has_char (a : Ascii.ascii) (s : string) : bool :=
  match s with
  | EmptyString => false
  | String c r => Ascii.eqb c a || has_char a r
  end.

(** One pass over the text, as the delimiter expression [${...}] matches it:
    a placeholder opens at ["${"] when a ["}"] follows somewhere and closes at
    the first ["}"]. [lit] is the literal text read so far, [hole] the
    expression read so far when inside a placeholder. *)
Fixpoint scan (s lit : string) (hole : option string) : list segment :=
  match s with
  | EmptyString => [Text lit]
  | String c r =>
      match hole with
      | Some e =>
          if Ascii.eqb c "}"%char then Interpolate e :: scan r "" None
          else scan r lit (Some (e +:+ String c ""))
      | None =>
          match r with
          | String d r' =>
              if Ascii.eqb c "$"%char && Ascii.eqb d "{"%char
                 && has_char "}"%char r'
              then Text lit :: scan r' "" (Some "")
              else scan r (lit +:+ String c "") None
          | EmptyString => scan r (lit +:+ String c "") None
          end
      end
  end.

Definition is_letter (a : Ascii.ascii) : bool :=
  let n := Ascii.nat_of_ascii a in
  (Nat.leb 65 n && Nat.leb n 90) || (Nat.leb 97 n && Nat.leb n 122).

Definition is_digit (a : Ascii.ascii) : bool :=
  let n := Ascii.nat_of_ascii a in Nat.leb 48 n && Nat.leb n 57.

Definition ident_start (a : Ascii.ascii) : bool :=
  is_letter a || Ascii.eqb a "_"%char || Ascii.eqb a "$"%char.

Definition ident_part (a : Ascii.ascii) : bool := ident_start a || is_digit a.

(** Words that are not plain references to a variable: the reserved words and
    literals of the language, [arguments] and [eval], the parameter [obj] of
    the compiled function, which is the data object itself, and its two
    accumulators [__t] and [__p], whose values change while the template
    runs. *)
Definition not_a_reference : list string :=
  [ "break"; "case"; "catch"; "class"; "const"; "continue"; "debugger";
    "default"; "delete"; "do"; "else"; "enum"; "export"; "extends"; "false";
    "finally"; "for"; "function"; "if"; "import"; "in"; "instanceof"; "new";
    "null"; "return"; "super"; "switch"; "this"; "throw"; "true"; "try";
    "typeof"; "var"; "void"; "while"; "with"; "yield"; "let"; "static";
    "await"; "implements"; "interface"; "package"; "private"; "protected";
    "public"; "arguments"; "eval"; "obj"; "__t"; "__p" ].

(** A variable name the fragment covers: one ASCII identifier. *)
Definition is_identifier (e : string) : bool :=
  match e with
  | EmptyString => false
  | String a r =>
      ident_start a && forallb ident_part (String.list_ascii_of_string r)
      && negb (existsb (String.eqb e) not_a_reference)
  end.

(** [s] without the beginning [p], when it begins so. *)
Fixpoint strip_prefix (p s : string) : option string :=
  match p, s with
  | EmptyString, _ => Some s
  | String a p', String b s' =>
      if Ascii.eqb a b then strip_prefix p' s' else None
  | String _ _, EmptyString => None
  end.

(** A compiled template: literal text, a variable, [typeof] of a variable. *)
Inductive piece :=
| Lit (s : string)
| Var (x : string)
| TypeofVar (x : string).

(** The expressions of placeholders the fragment covers: [x] and
    [typeof x], for an identifier [x]. *)
Definition parse (g : segment) : option piece :=
  match g with
  | Text s => Some (Lit s)
  | Interpolate e =>
      if is_identifier e then Some (Var e)
      else
        match strip_prefix "typeof " e with
        | Some x => if is_identifier x then Some (TypeofVar x) else None
        | None => None
        end
  end.

(** The variables the placeholders of a template name. *)
Definition referenced (source : string) : list string :=
  omap (fun g => match parse g with
                 | Some (Var x) | Some (TypeofVar x) => Some x
                 | _ => None
                 end)
       (scan source "" None).

(** The compiled form, when the template is in the fragment: no [<%]
    delimiter, every placeholder of a form that [parse] covers. *)
Definition compile (source : string) : option (list piece) :=
  if has_pair "<"%char "%"%char source then None
  else mapM parse (scan source "" None).

Section WithLibraries.
Context `{Libraries}.

Definition ReferenceError (x : string) : JsError :=
  {| err_name := "ReferenceError"; err_code := None;
     err_message := x +:+ " is not defined" |}.

(** The error of converting an object that has no callable [toString] left. *)
Definition ConversionError : JsError :=
  {| err_name := "TypeError"; err_code := None;
     err_message := "Cannot convert object to primitive value" |}.

(** [Buffer.prototype.toString()]: the bytes decoded as UTF-8. *)
Definition utf8_decode (bytes : string) : string :=
  if utf8_valid bytes then bytes else utf8_decode_beyond bytes.

(** The integers every digit of which a number holds. *)
Definition safe_integer (n : Z) : bool :=
  Z.leb (-9007199254740991) n && Z.leb n 9007199254740991.

Definition Number_toString (n : Z) : string :=
  if safe_integer n then pretty n else Number_toString_beyond n.

(** The string [v] becomes when it is appended to a string. An object
    converts through [Object.prototype.toString] unless an own property
    [toString] hides it; the property holds data, which cannot be called, so
    the conversion throws. An array joins the strings of its elements, [null]
    and [undefined] giving the empty string, and throws what an element
    throws. *)
Fixpoint appended (v : value) : outcome string :=
  match v with
  | VUndefined => Return "undefined"
  | VNull => Return "null"
  | VBool true => Return "true"
  | VBool false => Return "false"
  | VNumber n => Return (Number_toString n)
  | VString s => Return s
  | VArray l =>
      (fix joined (l : list value) : outcome string :=
         match l with
         | [] => Return ""
         | x :: rest =>
             match match x with
                   | VUndefined | VNull => Return ""
                   | _ => appended x
                   end with
             | Throw e => Throw e
             | Return s =>
                 match rest with
                 | [] => Return s
                 | _ :: _ =>
                     match joined rest with
                     | Throw e => Throw e
                     | Return t => Return (s +:+ "," +:+ t)
                     end
                 end
             end
         end) l
  | VObject o =>
      match o !! "toString" with
      | Some _ => Throw ConversionError
      | None => Return "[object Object]"
      end
  end.

(** [typeof v] *)
Definition typeof_String (v : value) : string :=
  match v with
  | VUndefined => "undefined"
  | VBool _ => "boolean"
  | VNumber _ => "number"
  | VString _ => "string"
  | VNull | VArray _ | VObject _ => "object"
  end.

(** An identifier inside [with (obj) { ... }]: an own property of the data
    object first, the enclosing scope next, a [ReferenceError] otherwise. *)
Definition resolve (x : string) (data : gmap string value) : outcome value :=
  match data !! x with
  | Some v => Return v
  | None =>
      match enclosing_scope x with
      | Some v => Return v
      | None => Throw (ReferenceError x)
      end
  end.

(** What a name resolves to: the own property of the data, or else the
    binding of the enclosing scope. *)
Definition resolves_to (data : gmap string value) (x : string) (v : value)
  : Prop :=
  data !! x = Some v \/ (data !! x = None /\ enclosing_scope x = Some v).

(** [((__t = (x)) == null ? '' : __t)] appended to a string. *)
Definition interpolated (v : value) : outcome string :=
  match v with
  | VUndefined | VNull => Return ""
  | _ => appended v
  end.

(** [typeof x], which is ['undefined'] for a name that resolves nowhere. *)
Definition typeof_reference (x : string) (data : gmap string value) : string :=
  match resolve x data with
  | Return v => typeof_String v
  | Throw _ => "undefined"
  end.

(** Running the compiled template: the pieces are evaluated, converted and
    appended from left to right; what a placeholder yields is appended as it
    is. *)
Fixpoint render (data : gmap string value) (pieces : list piece)
  : outcome string :=
  match pieces with
  | [] => Return ""
  | Lit s :: rest =>
      match render data rest with
      | Return out => Return (s +:+ out)
      | Throw e => Throw e
      end
  | Var x :: rest =>
      match resolve x data with
      | Throw e => Throw e
      | Return v =>
          match interpolated v with
          | Throw e => Throw e
          | Return s =>
              match render data rest with
              | Return out => Return (s +:+ out)
              | Throw e => Throw e
              end
          end
      end
  | TypeofVar x :: rest =>
      match render data rest with
      | Return out => Return (typeof_reference x data +:+ out)
      | Throw e => Throw e
      end
  end.

(** [_.template(buffer)(data)]. The buffer is decoded and compiled to
    [function (obj) { var __t, __p = ''; with (obj) { __p += ... }
    return __p }].
    Inside [with (obj)] an own property [__p] of the data is the [__p] that
    is added to, after the pieces are evaluated; the variable that is
    returned then stays empty. *)
Definition template (source : string) (data : gmap string value)
  : outcome string :=
  let text := utf8_decode source in
  match compile text with
  | None => template_beyond text data
  | Some pieces =>
      match render data pieces with
      | Throw e => Throw e
      | Return out =>
          match data !! "__p" with
          | None => Return out
          | Some own =>
              match appended own with
              | Throw e => Throw e
              | Return _ => Return ""
              end
          end
      end
  end.

End WithLibraries.
End Lodash.

(** ** [lib/utils.js] *)

Module Utils.
Import Fs FsWrite Lodash.

(** The object the module-level constant [DEFAULT_CONFIG] is bound to. *)
Definition DEFAULT_CONFIG : nat := 0.

(** The object literal [DEFAULT_CONFIG] is initialised with. *)
Definition DEFAULT_CONFIG_literal : gmap string value :=
  {[ "tabSize" := VNumber 2; "storybook" := VBool false ]}.

(** The heap when the module has been loaded. *)
Definition loaded_heap : gmap nat (gmap string value) :=
  {[ DEFAULT_CONFIG := DEFAULT_CONFIG_literal ]}.

(** What [getFileContent] returns: a [Buffer] or a string. *)
Inductive content :=
| CBuffer (b : Buffer)
| CString (s : string).

(** The bytes [content] amounts to when written to a file. *)
Definition content_bytes (c : content) : string :=
  match c with
  | CBuffer b => bytes b
  | CString s => s
  end.

Section WithLibraries.
Context `{Libraries}.

Definition generateConfig (overrides : value) : M nat :=
  let* config := clone DEFAULT_CONFIG in
  assign config overrides.

(** [overrides = {}]: the default applies when the argument is [undefined]. *)
Definition getCustomConfig (overrides : value) : M string :=
  let overrides :=
    match overrides with VUndefined => VObject ∅ | _ => overrides end in
  let* config := generateConfig overrides in
  fun w => (yaml_safeDump (heap w !!! config), w).

Definition editFile (type pathToFile string : string)
    (options : editer_options) : M unit :=
  let* fileContent := readFileSync_utf8 pathToFile in
  let* updatedContent :=
    if String.eqb type "insert"
    then lift (editer_insert string fileContent options)
    else if String.eqb type "remove"
    then lift (editer_remove string fileContent options)
    else ret VUndefined in
  writeFileSync pathToFile updatedContent.

(** The value of [updatedContent] when [editFile] reaches the write, by the
    value of [type]. *)
Definition updated (type string fileContent : string)
    (options : editer_options) : outcome value :=
  if String.eqb type "insert" then editer_insert string fileContent options
  else if String.eqb type "remove"
       then editer_remove string fileContent options
       else Return VUndefined.

Definition insertToFile (pathToFile string : string)
    (options : editer_options) : M unit :=
  editFile "insert" pathToFile string options.

Definition removeFromFile (pathToFile string : string)
    (options : editer_options) : M unit :=
  editFile "remove" pathToFile string options.

(** [templateVariables] is a plain object, or [None] when the argument is
    left out. *)
Definition getFileContent (templatePath : string)
    (templateVariables : option (gmap string value)) : M content :=
  let* templateContent := readFileSync templatePath in
  match templateVariables with
  | Some variables =>
      let* text := lift (template (bytes templateContent) variables) in
      ret (CString text)
  | None => ret (CBuffer templateContent)
  end.

(** [e.code === 'ENOENT'] *)
Definition is_ENOENT (e : JsError) : bool :=
  match err_code e with
  | Some c => String.eqb c "ENOENT"
  | None => false
  end.

Definition checkFileExists (path : string) : M bool :=
  try_catch
    (let* _ := lstatSync path in ret true)
    (fun e => if is_ENOENT e then ret false else throw e).

Definition parseYamlFromFile (path : string) : M value :=
  let* content := readFileSync_utf8 path in
  lift (yaml_safeLoad content).

Definition readConfig : M nat :=
  let userConfigPath := "./mantra_cli.yaml" in
  let config := DEFAULT_CONFIG in
  let* found := checkFileExists userConfigPath in
  if (found : bool)
  then
    let* userConfig := parseYamlFromFile userConfigPath in
    let* _ := assign config userConfig in
    ret config
  else ret config.

End WithLibraries.
End Utils.

(** ** A concrete environment for the examples *)

Module Fixture.
Import Fs FsWrite Lodash Utils.

Definition YAMLException (msg : string) : JsError :=
  {| err_name := "YAMLException"; err_code := None; err_message := msg |}.

Definition SystemError (code : string) : JsError :=
  {| err_name := "Error"; err_code := Some code; err_message := code |}.

(** js-yaml on the documents the examples use: a one-entry mapping and the
    empty document, which loads as [undefined]. Any other text stands for a
    malformed document. *)
Definition safeLoad (doc : string) : outcome value :=
  if String.eqb doc "storybook: true"
  then Return (VObject {[ "storybook" := VBool true ]})
  else if String.eqb doc "" then Return VUndefined
  else Throw (YAMLException "bad indentation of a mapping entry").

(** The examples print no document. *)
Definition safeDump (o : gmap string value) : outcome string :=
  Throw (YAMLException "unacceptable kind of an object to dump").

(** A stand-in for editer: insertion appends, removal leaves the text as it
    is. The only options value is [tt]. *)
Definition insert (string target : string) (_ : unit) : outcome value :=
  Return (VString (target +:+ string)).

Definition remove (string target : string) (_ : unit) : outcome value :=
  Return (VString target).

(** The least scope around a compiled template: the global [undefined], which
    every scope chain ends in. *)
Definition scope (x : string) : option value :=
  if String.eqb x "undefined" then Some VUndefined else None.

(** U+FFFD, which stands for what cannot be decoded. *)
Definition replacement_character : string :=
  String "239" (String "191" (String "189" "")).

Definition beyond (source : string) (data : gmap string value)
  : outcome string :=
  Throw {| err_name := "SyntaxError"; err_code := None;
           err_message := "Unexpected token" |}.

#[export] Instance libraries : Libraries := {|
  yaml_safeLoad := safeLoad;
  yaml_safeDump := safeDump;
  editer_options := unit;
  editer_insert := insert;
  editer_remove := remove;
  enclosing_scope := scope;
  template_beyond := beyond;
  write_coerce := fun v => Return (to_String v);
  write_fault := fun _ _ _ => None;
  write_aliases := fun _ _ d => d;
  Number_toString_beyond := fun _ => "Infinity";
  utf8_decode_beyond := fun _ => replacement_character;
  String_units_beyond := fun _ => []
|}.

(** A directory that holds the one file [path] with text [text]; every other
    path does not exist. *)
Definition one_file (path text : string) : FS :=
  {| fs_lstat := fun p =>
       if String.eqb p path then None else Some (SystemError "ENOENT");
     fs_read := fun p =>
       if String.eqb p path then Return text
       else Throw (SystemError "ENOENT");
     fs_write := fun _ => None |}.

(** A directory that holds the one file [path], which can be read and
    not written. *)
Definition read_only (path text : string) : FS :=
  {| fs_lstat := fun p =>
       if String.eqb p path then None else Some (SystemError "ENOENT");
     fs_read := fun p =>
       if String.eqb p path then Return text
       else Throw (SystemError "ENOENT");
     fs_write := fun _ => Some (SystemError "EACCES") |}.

(** An empty directory. *)
Definition no_file : FS :=
  {| fs_lstat := fun _ => Some (SystemError "ENOENT");
     fs_read := fun _ => Throw (SystemError "ENOENT");
     fs_write := fun _ => None |}.

(** A directory whose entries cannot be examined. *)
Definition denied : FS :=
  {| fs_lstat := fun _ => Some (SystemError "EACCES");
     fs_read := fun _ => Throw (SystemError "EACCES");
     fs_write := fun _ => Some (SystemError "EACCES") |}.

(** The process right after the module is loaded, in directory [d]. *)
Definition started (d : FS) : World :=
  {| heap := loaded_heap; disk := d; written := [] |}.

(** The same process after its working directory has become [d]. *)
Definition moved (d : FS) (w : World) : World :=
  {| heap := heap w; disk := d; written := written w |}.

End Fixture.

(** ** [lib/utils.js]: directories, files from templates, commands *)

(** What these functions take from the process and from fs-extra and
    child_process, without determining it.
    - [process_platform]: [process.platform].
    - [win32_basename]: [path.basename] as the [path] module has it when
      [process.platform] is ['win32'].
    - [fsx_mkdirsSync path], [fsx_outputFileSync path data]: fs-extra's two
      calls, as the change they make to the file system or the error they
      throw.
    - [child_execSync cmd options]: the same for [child_process.execSync];
      [options] is the object passed along. *)
Class Shell := {
  process_platform : string;
  win32_basename : string -> string;
  fsx_mkdirsSync : string -> FS -> outcome unit * FS;
  fsx_outputFileSync : string -> Utils.content -> FS -> outcome unit * FS;
  child_execSync : string -> value -> FS -> outcome unit * FS
}.

Module Host.
Import Utils.

(** The calls these functions make outwards, with their arguments. *)
Inductive call :=
| logger_create (displayPath : string)
| logger_run (cmd : string)
| logger_invoke (scriptName : string)
| mkdirsSync_call (path : string)
| outputFileSync_call (path : string) (data : content)
| execSync_call (cmd : string) (options : value).

(** The process together with the calls made so far, latest first. *)
Record Run := mkRun {
  world : World;
  calls : list call
}.

Definition Act (A : Type) : Type := Run -> outcome A * Run.

Definition ret_h {A} (a : A) : Act A := fun r => (Return a, r).

Definition bind_h {A B} (m : Act A) (k : A -> Act B) : Act B :=
  fun r =>
    match m r with
    | (Return a, r') => k a r'
    | (Throw e, r') => (Throw e, r')
    end.


(** A call is recorded when it is made. *)
Definition record (c : call) : Act unit :=
  fun r => (Return tt, {| world := world r; calls := c :: calls r |}).

(** A library call that acts on the file system. *)
Definition on_disk (f : FS -> outcome unit * FS) : Act unit :=
  fun r =>
    match f (disk (world r)) with
    | (o, d') =>
        (o, {| world := {| heap := heap (world r); disk := d';
                           written := written (world r) |};
               calls := calls r |})
    end.

End Host.
Export Host.

Notation "'let+' x ':=' m 'in' k" := (bind_h m (fun x => k))
  (at level 10, x name, m at level 100, k at level 200).

(** Modelled from the spec: the logger of [./logger], which is not among the
    sources. The spec gives it three notifications, [create(path)],
    [run(cmd)] and [invoke(name)]; a notification is recorded and returns. *)
Module Logger.

Definition create (displayPath : string) : Act unit :=
  record (logger_create displayPath).

Definition run (cmd : string) : Act unit := record (logger_run cmd).

Definition invoke (scriptName : string) : Act unit :=
  record (logger_invoke scriptName).

End Logger.

(** The strings and regular expressions of these functions. *)
Module Text.

(** [s1] is how [s2] begins. *)
Fixpoint starts_with (s1 s2 : string) : bool :=
  match s1, s2 with
  | EmptyString, _ => true
  | String a r1, String b r2 => Ascii.eqb a b && starts_with r1 r2
  | String _ _, EmptyString => false
  end.

(** [s.replace(/^\.\//, '')]: one leading ["./"] is dropped. *)
Definition strip_dot_slash (s : string) : string :=
  match s with
  | String "." (String "/" r) => r
  | _ => s
  end.

(** [s.replace(/$/, '/')]: the end of the input is the one place [$] matches
    without the [m] flag. *)
Definition append_slash (s : string) : string := s +:+ "/".

(** The first of the line terminators [.] does not match begins [s]: LF, CR,
    and U+2028 and U+2029, which are the bytes E2 80 A8 and E2 80 A9. *)
Definition at_line_terminator (s : string) : bool :=
  starts_with (String "010" "") s
  || starts_with (String "013" "") s
  || starts_with (String "226" (String "128" (String "168" ""))) s
  || starts_with (String "226" (String "128" (String "169" ""))) s.

Fixpoint has_line_terminator (s : string) : bool :=
  match s with
  | EmptyString => false
  | String _ r => at_line_terminator s || has_line_terminator r
  end.

(** [s.replace(/\..*$/, '')]: the match starts at the first dot that no line
    terminator follows, and runs to the end. *)
Fixpoint strip_extension (s : string) : string :=
  match s with
  | EmptyString => EmptyString
  | String c r =>
      if Ascii.eqb c "." && negb (has_line_terminator r) then EmptyString
      else String c (strip_extension r)
  end.

(** [path.basename] of the posix [path] module: the last run of characters
    other than ["/"]. [cur] is the run being read, [last] the one before. *)
Fixpoint last_component (s cur last : string) : string :=
  match s with
  | EmptyString => if String.eqb cur "" then last else cur
  | String c r =>
      if Ascii.eqb c "/"
      then last_component r "" (if String.eqb cur "" then last else cur)
      else last_component r (cur +:+ String c "") last
  end.

Definition posix_basename (path : string) : string :=
  last_component path "" "".

(** An element of an array inside [Array.prototype.join]. *)
Definition element_String (v : value) : string :=
  match v with
  | VUndefined | VNull => ""
  | _ => to_String v
  end.

(** [array.join(separator)] *)
Definition join (separator : string) (array : list value) : string :=
  String.concat separator (map element_String array).

End Text.

Module Scaffold.
Import Fs FsWrite Lodash Utils Text.

Section WithLibraries.
Context `{Libraries} `{Shell}.

Definition mkdirsSync (path : string) : Act unit :=
  let+ _ := record (mkdirsSync_call path) in
  on_disk (fsx_mkdirsSync path).


Definition execSync (cmd : string) (options : value) : Act unit :=
  let+ _ := record (execSync_call cmd options) in
  on_disk (child_execSync cmd options).

(** The [path] module is the win32 one exactly on ['win32']. *)
Definition basename (p : string) : string :=
  if String.eqb process_platform "win32" then win32_basename p
  else posix_basename p.

Definition createDir (path : string) : Act unit :=
  let+ _ := mkdirsSync path in
  let displayPath := append_slash (strip_dot_slash path) in
  Logger.create displayPath.


Definition executeCommand (cmd : string) (options : value) : Act unit :=
  let+ _ := Logger.run cmd in
  execSync cmd options.

(** [/^win/.test(process.platform)] *)
Definition isWindows : bool := starts_with "win" process_platform.

Definition getLineBreak : string :=
  if isWindows then String "013" (String "010" "") else String "010" "".

(** [args = []] and [options = {}]: the defaults apply when the argument is
    [undefined] ([None] for [args]). *)
Definition runScriptFile (pathToScript : string) (args : option (list value))
    (options : value) : Act unit :=
  let args := match args with Some a => a | None => [] end in
  let options :=
    match options with VUndefined => VObject ∅ | _ => options end in
  let scriptName := strip_extension (basename pathToScript) in
  let+ _ := Logger.invoke scriptName in
  let commandPrefix := if isWindows then "" else "bash" in
  execSync (commandPrefix +:+ " " +:+ pathToScript +:+ " " +:+ join " " args)
    options.

End WithLibraries.
End Scaffold.

(** ** A concrete host for the examples *)

Module FixtureHost.
Import Fs Utils Fixture.

(** A stand-in for the commands of the examples: [false] fails, any other
    command succeeds and leaves the files as they are. *)
Definition exec (cmd : string) (options : value) (d : FS)
  : outcome unit * FS :=
  if String.eqb cmd "false"
  then (Throw {| err_name := "Error"; err_code := None;
                 err_message := "Command failed: false" |}, d)
  else (Return tt, d).

(** A stand-in for fs-extra: a directory can be made unless opening its path
    for writing fails; a file is written the same way. *)
Definition mkdirs (path : string) (d : FS) : outcome unit * FS :=
  match fs_write d path with
  | Some e => (Throw e, d)
  | None => (Return tt, d)
  end.

Definition outputFile (path : string) (data : content) (d : FS)
  : outcome unit * FS :=
  match fs_write d path with
  | Some e => (Throw e, d)
  | None => (Return tt, overwrite path (content_bytes data) d)
  end.

#[export] Instance linux : Shell := {|
  process_platform := "linux";
  win32_basename := fun p => p;
  fsx_mkdirsSync := mkdirs;
  fsx_outputFileSync := outputFile;
  child_execSync := exec
|}.

(** The start of a run in directory [d]: no call made yet. *)
Definition fresh_run (d : FS) : Run :=
  {| world := started d; calls := [] |}.

End FixtureHost.

(** * Properties *)

Import Fs FsWrite Lodash Utils.

(** Unfold the computations of the module down to the file system and heap. *)
Ltac run :=
  unfold readConfig, parseYamlFromFile, checkFileExists, getFileContent,
    insertToFile, removeFromFile, editFile, getCustomConfig, generateConfig,
    writeFileSync, readFileSync, readFileSync_utf8, lstatSync, assign, clone,
    try_catch, bind, lift, ret, throw in *;
  cbn [fst snd heap disk written bytes] in *.

(** ** Merging overrides over the default *)

Section Config.
Context `{Libraries}.

(** The reference [_.clone] returns is new. *)
Lemma clone_fresh (w : World) :
  DEFAULT_CONFIG ∈ dom (heap w) -> fresh (dom (heap w)) ≠ DEFAULT_CONFIG.
Proof.
  intros Hin Heq. apply (is_fresh (dom (heap w))). by rewrite Heq.
Qed.

(** What [generateConfig] leaves on the heap: the copy, with the own
    properties of the overrides written over it. *)
Lemma generateConfig_run (overrides : value) (w : World) :
  let config := fresh (dom (heap w)) in
  fst (generateConfig overrides w) = Return config /\
  heap (snd (generateConfig overrides w)) !! config =
    Some (if truthy overrides
          then own_props overrides ∪ (heap w !!! DEFAULT_CONFIG)
          else heap w !!! DEFAULT_CONFIG) /\
  disk (snd (generateConfig overrides w)) = disk w.
Proof.
  run. destruct (truthy overrides); cbn; split_and!; try done.
  - rewrite lookup_alter, decide_True by done. by rewrite lookup_insert_eq.
  - by rewrite lookup_insert_eq.
Qed.

(** [generateConfig] works on a copy: the object [DEFAULT_CONFIG] is bound to
    is as it was. *)
Lemma generateConfig_keeps_default (overrides : value) (w : World) :
  DEFAULT_CONFIG ∈ dom (heap w) ->
  heap (snd (generateConfig overrides w)) !! DEFAULT_CONFIG =
    heap w !! DEFAULT_CONFIG.
Proof.
  intros Hin. pose proof (clone_fresh w Hin) as Hne.
  run. destruct (truthy overrides); cbn.
  - rewrite lookup_alter, decide_False by done. by rewrite lookup_insert_ne.
  - by rewrite lookup_insert_ne.
Qed.

(** So does [getCustomConfig]. *)
Lemma getCustomConfig_keeps_default (overrides : value) (w : World) :
  DEFAULT_CONFIG ∈ dom (heap w) ->
  heap (snd (getCustomConfig overrides w)) !! DEFAULT_CONFIG =
    heap w !! DEFAULT_CONFIG.
Proof.
  intros Hin. unfold getCustomConfig.
  set (o := match overrides with
            | VUndefined => VObject ∅
            | _ => overrides
            end).
  pose proof (generateConfig_keeps_default o w Hin) as Hk.
  unfold bind. destruct (generateConfig o w) as [[config|e] w']; exact Hk.
Qed.

(** Leaving the argument out is passing [{}]. *)
Lemma getCustomConfig_default_argument (w : World) :
  getCustomConfig VUndefined w = getCustomConfig (VObject ∅) w.
Proof. reflexivity. Qed.

(** For every override mapping [O], [generateConfig] returns a new object
    that holds every key of [O] with the value [O] gives it, and [tabSize]
    and [storybook] with their defaults 2 and [false] when [O] leaves them
    out; it is [O] laid over the default, and what [getCustomConfig] prints.
    For [{tabSize: 4}] the result is [{tabSize: 4, storybook: false}]. *)
Theorem generateConfig_merge (O : gmap string value) (w : World) :
  heap w !! DEFAULT_CONFIG = Some DEFAULT_CONFIG_literal ->
  exists (config : nat) (merged : gmap string value),
    fst (generateConfig (VObject O) w) = Return config /\
    heap (snd (generateConfig (VObject O) w)) !! config = Some merged /\
    config ≠ DEFAULT_CONFIG /\
    (forall k v, O !! k = Some v -> merged !! k = Some v) /\
    (O !! "tabSize" = None -> merged !! "tabSize" = Some (VNumber 2)) /\
    (O !! "storybook" = None -> merged !! "storybook" = Some (VBool false)) /\
    merged = O ∪ DEFAULT_CONFIG_literal /\
    fst (getCustomConfig (VObject O) w) = yaml_safeDump merged /\
    (O = {[ "tabSize" := VNumber 4 ]} ->
     merged = {[ "tabSize" := VNumber 4; "storybook" := VBool false ]}).
Proof.
  intros Hd.
  destruct (generateConfig_run (VObject O) w) as (Hr & Hh & _).
  cbn [truthy own_props] in Hh.
  rewrite (lookup_total_correct _ _ _ Hd) in Hh.
  exists (fresh (dom (heap w))), (O ∪ DEFAULT_CONFIG_literal).
  split_and!; try done.
  - apply clone_fresh, elem_of_dom. by rewrite Hd.
  - intros k v Hk. by apply lookup_union_Some_l.
  - intros Hk. by rewrite lookup_union_r.
  - intros Hk. by rewrite lookup_union_r.
  - unfold getCustomConfig, bind.
    destruct (generateConfig (VObject O) w) as [[c|e] w'] eqn:E;
      cbn in Hr, Hh |- *; [|done].
    injection Hr as ->. by rewrite (lookup_total_correct _ _ _ Hh).
  - intros ->. apply map_eq. intros k.
    destruct (decide (k = "tabSize")) as [->|Hk]; [done|].
    rewrite lookup_union_r by (by rewrite lookup_singleton_ne).
    unfold DEFAULT_CONFIG_literal. by rewrite !(lookup_insert_ne _ "tabSize").
Qed.

End Config.

(** ** Loading the configuration *)

Section Loading.
Context `{Libraries}.

Lemma checkFileExists_run (path : string) (w : World) :
  checkFileExists path w =
    (match fs_lstat (disk w) path with
     | None => Return true
     | Some e => if is_ENOENT e then Return false else Throw e
     end, w).
Proof.
  run. destruct (fs_lstat (disk w) path) as [e|]; [|done].
  by destruct (is_ENOENT e).
Qed.

Lemma is_ENOENT_code (e : JsError) :
  is_ENOENT e = true <-> err_code e = Some "ENOENT".
Proof.
  unfold is_ENOENT. destruct (err_code e) as [c|]; [|done].
  rewrite String.eqb_eq. split; congruence.
Qed.

(** With the file absent [readConfig] hands out the object [DEFAULT_CONFIG]
    is bound to, as it stands, and changes nothing. *)
Lemma readConfig_absent (w : World) (e : JsError) :
  fs_lstat (disk w) "./mantra_cli.yaml" = Some e ->
  err_code e = Some "ENOENT" ->
  readConfig w = (Return DEFAULT_CONFIG, w).
Proof.
  intros Hl Hc. apply is_ENOENT_code in Hc.
  unfold readConfig, bind. rewrite checkFileExists_run, Hl, Hc. done.
Qed.

(** In a process whose [DEFAULT_CONFIG] still holds its literal, the
    configuration returned for an absent file is that literal. *)
Lemma readConfig_absent_untouched (w : World) (e : JsError) :
  fs_lstat (disk w) "./mantra_cli.yaml" = Some e ->
  err_code e = Some "ENOENT" ->
  heap w !! DEFAULT_CONFIG = Some DEFAULT_CONFIG_literal ->
  exists config,
    fst (readConfig w) = Return config /\
    heap (snd (readConfig w)) !! config = Some DEFAULT_CONFIG_literal.
Proof.
  intros Hl Hc Hd. rewrite (readConfig_absent w e Hl Hc).
  by exists DEFAULT_CONFIG.
Qed.

(** With the file present and loaded as [doc], [readConfig] writes the own
    properties of [doc] into the object [DEFAULT_CONFIG] is bound to, and
    returns that object. *)
Lemma readConfig_present (w : World) (text : string) (doc : value) :
  fs_lstat (disk w) "./mantra_cli.yaml" = None ->
  fs_read (disk w) "./mantra_cli.yaml" = Return text ->
  yaml_safeLoad text = Return doc ->
  truthy doc = true ->
  fst (readConfig w) = Return DEFAULT_CONFIG /\
  heap (snd (readConfig w)) =
    alter (fun o => own_props doc ∪ o) DEFAULT_CONFIG (heap w).
Proof.
  intros Hl Hr Hy Ht.
  unfold readConfig, bind. rewrite checkFileExists_run, Hl.
  run. rewrite Hr, Hy, Ht. done.
Qed.

(** Every key of a loaded mapping ends up in [DEFAULT_CONFIG] itself. *)
Lemma readConfig_present_key (w : World) (text k : string)
    (o : gmap string value) (v : value) :
  fs_lstat (disk w) "./mantra_cli.yaml" = None ->
  fs_read (disk w) "./mantra_cli.yaml" = Return text ->
  yaml_safeLoad text = Return (VObject o) ->
  DEFAULT_CONFIG ∈ dom (heap w) ->
  o !! k = Some v ->
  (heap (snd (readConfig w)) !!! DEFAULT_CONFIG) !! k = Some v.
Proof.
  intros Hl Hr Hy Hin Hk.
  destruct (readConfig_present w text (VObject o) Hl Hr Hy eq_refl) as [_ ->].
  apply elem_of_dom in Hin as [d Hd].
  rewrite lookup_total_alt, lookup_alter, decide_True, Hd by done.
  cbn. by apply lookup_union_Some_l.
Qed.

(** C4. [checkFileExists] returns [false] exactly when [fs.lstatSync] throws
    an error whose code is [ENOENT], throws exactly the errors of
    [fs.lstatSync] with another code, and returns [true] exactly when the
    call succeeds. [readConfig] throws exactly the errors that come from
    [fs.lstatSync] with a code other than [ENOENT], from reading the file, or
    from parsing it; an [ENOENT] from [fs.lstatSync] is the one failure it
    recovers from, returning the default object. *)
Theorem only_ENOENT_is_recovered (path : string) (w : World) :
  (fst (checkFileExists path w) = Return false <->
     exists e, fs_lstat (disk w) path = Some e /\
               err_code e = Some "ENOENT") /\
  (forall e, fst (checkFileExists path w) = Throw e <->
     fs_lstat (disk w) path = Some e /\ err_code e ≠ Some "ENOENT") /\
  (fst (checkFileExists path w) = Return true <->
     fs_lstat (disk w) path = None) /\
  (forall e, fst (readConfig w) = Throw e <->
     (fs_lstat (disk w) "./mantra_cli.yaml" = Some e /\
      err_code e ≠ Some "ENOENT") \/
     (fs_lstat (disk w) "./mantra_cli.yaml" = None /\
      fs_read (disk w) "./mantra_cli.yaml" = Throw e) \/
     (fs_lstat (disk w) "./mantra_cli.yaml" = None /\
      exists text, fs_read (disk w) "./mantra_cli.yaml" = Return text /\
                   yaml_safeLoad text = Throw e)) /\
  ((exists e, fs_lstat (disk w) "./mantra_cli.yaml" = Some e /\
              err_code e = Some "ENOENT") ->
   fst (readConfig w) = Return DEFAULT_CONFIG).
Proof.
  split_and!.
  - rewrite checkFileExists_run. cbn.
    destruct (fs_lstat (disk w) path) as [e|].
    + destruct (is_ENOENT e) eqn:E.
      * split; [|done]. intros _. exists e. by rewrite <- is_ENOENT_code.
      * split; [done|]. intros (e' & [= <-] & Hc).
        apply is_ENOENT_code in Hc. congruence.
    + split; [done|]. by intros (e' & ? & _).
  - intros e. rewrite checkFileExists_run. cbn.
    destruct (fs_lstat (disk w) path) as [e0|].
    + destruct (is_ENOENT e0) eqn:E.
      * split; [done|]. intros [[= <-] Hc].
        apply is_ENOENT_code in E. congruence.
      * split.
        -- intros [= <-]. split; [done|]. rewrite <- is_ENOENT_code. congruence.
        -- by intros [[= <-] _].
    + split; [done|]. by intros [? _].
  - rewrite checkFileExists_run. cbn.
    destruct (fs_lstat (disk w) path) as [e|]; [|done].
    by destruct (is_ENOENT e).
  - intros e. unfold readConfig, bind. rewrite checkFileExists_run.
    destruct (fs_lstat (disk w) "./mantra_cli.yaml") as [e0|].
    + destruct (is_ENOENT e0) eqn:E; cbn.
      * apply is_ENOENT_code in E.
        split; [done|]. intros [[[= <-] Hc]|[[? _]|[? _]]]; done.
      * split.
        -- intros [= <-]. left. split; [done|].
           rewrite <- is_ENOENT_code. congruence.
        -- intros [[[= <-] _]|[[? _]|[? _]]]; done.
    + run. destruct (fs_read (disk w) "./mantra_cli.yaml") as [text|e1].
      * destruct (yaml_safeLoad text) as [doc|e2] eqn:Ey; cbn.
        -- split; [done|].
           intros [[? _]|[[_ ?]|(_ & t & [= <-] & ?)]]; congruence.
        -- split.
           ++ intros [= <-]. right. right. split; [done|]. by exists text.
           ++ intros [[? _]|[[_ ?]|(_ & t & [= <-] & ?)]]; congruence.
      * cbn. split.
        -- intros [= <-]. right. by left.
        -- intros [[? _]|[[_ [= <-]]|(_ & t & ? & _)]]; done.
  - intros (e & Hl & Hc). by rewrite (readConfig_absent w e Hl Hc).
Qed.

End Loading.

(** ** Scanning a template *)

Section Scanning.

Lemma append_cons (a : Ascii.ascii) (s t : string) :
  String a s +:+ t = String a (s +:+ t).
Proof. reflexivity. Qed.

Lemma append_empty_r (s : string) : s +:+ "" = s.
Proof. induction s as [|a s IH]; [done|]. by rewrite append_cons, IH. Qed.

Lemma append_assoc (s t u : string) : (s +:+ t) +:+ u = s +:+ t +:+ u.
Proof. induction s as [|a s IH]; [done|]. by rewrite !append_cons, IH. Qed.

Lemma append_snoc (lit : string) (c : Ascii.ascii) (r : string) :
  (lit +:+ String c "") +:+ r = lit +:+ String c r.
Proof. by rewrite append_assoc. Qed.

Lemma has_char_append (a : Ascii.ascii) (s t : string) :
  has_char a (s +:+ t) = has_char a s || has_char a t.
Proof.
  induction s as [|c s IH]; [done|].
  rewrite append_cons. cbn. by rewrite IH, orb_assoc.
Qed.

Lemma scan_step (c d : Ascii.ascii) (r lit : string) :
  scan (String c (String d r)) lit None =
    if Ascii.eqb c "$" && Ascii.eqb d "{" && has_char "}" r
    then Text lit :: scan r "" (Some "")
    else scan (String d r) (lit +:+ String c "") None.
Proof. reflexivity. Qed.


(** Text without ["${"] is one literal piece. *)
Lemma scan_text (s lit : string) :
  has_pair "$" "{" s = false -> scan s lit None = [Text (lit +:+ s)].
Proof.
  revert lit. induction s as [|c r IH]; intros lit Hp.
  - cbn. by rewrite append_empty_r.
  - destruct r as [|d r'].
    + done.
    + cbn [has_pair] in Hp. apply orb_false_elim in Hp as [Hcd Hr].
      rewrite scan_step, Hcd. cbn [andb]. rewrite (IH _ Hr).
      by rewrite append_snoc.
Qed.




(** A template without ["${"] and without ["<%"] compiles to its text. *)
Lemma compile_text (s : string) :
  has_pair "$" "{" s = false -> has_pair "<" "%" s = false ->
  compile s = Some [Lit s].
Proof.
  intros Hd Hp. unfold compile. by rewrite Hp, (scan_text s "" Hd).
Qed.

Lemma referenced_text (s : string) :
  has_pair "$" "{" s = false -> referenced s = [].
Proof. intros Hd. unfold referenced. by rewrite (scan_text s "" Hd). Qed.


End Scanning.

(** ** Rendering a template *)

Section Rendering.
Context `{Libraries}.

Lemma resolve_returns (data : gmap string value) (x : string) (v : value) :
  resolve x data = Return v <-> resolves_to data x v.
Proof.
  unfold resolve, resolves_to. destruct (data !! x) as [v0|].
  - split; [intros [= ->]; by left|]. intros [[= ->]|[? _]]; done.
  - destruct (enclosing_scope x) as [v0|].
    + split; [intros [= ->]; by right|]. intros [?|[_ [= ->]]]; done.
    + split; [done|]. intros [?|[_ ?]]; done.
Qed.

Lemma resolve_throws (data : gmap string value) (x : string) (e : JsError) :
  resolve x data = Throw e <->
  data !! x = None /\ enclosing_scope x = None /\ e = ReferenceError x.
Proof.
  unfold resolve. destruct (data !! x) as [v0|].
  - split; [done|]. by intros [? _].
  - destruct (enclosing_scope x) as [v0|].
    + split; [done|]. by intros (_ & ? & _).
    + split; [by intros [= <-]|]. by intros (_ & _ & ->).
Qed.

(** A scalar is appended as it prints; [null] and [undefined] as nothing. *)
Lemma interpolated_scalar (v : value) :
  is_scalar v = true -> exists s, interpolated v = Return s.
Proof.
  intros Hs. destruct v as [| |[]| | | |]; try done; by eexists.
Qed.

(** A variable that resolves nowhere is never passed over: running the
    compiled template throws. *)
Lemma render_unresolved (data : gmap string value) (pieces : list piece) :
  (exists x, Var x ∈ pieces /\ data !! x = None /\
             enclosing_scope x = None) ->
  exists e, render data pieces = Throw e.
Proof.
  induction pieces as [|g pieces IH]; intros (x & Hin & Hd & Hs).
  - by apply elem_of_nil in Hin.
  - destruct g as [s|z|z]; cbn [render].
    + apply elem_of_cons in Hin as [|Hin]; [done|].
      destruct IH as [e ->]; [by exists x|]. by exists e.
    + destruct (resolve z data) as [v|e0] eqn:Ez; [|by exists e0].
      destruct (interpolated v) as [s|e0]; [|by exists e0].
      apply elem_of_cons in Hin as [[= ->]|Hin].
      * apply resolve_returns in Ez as [?|[_ ?]]; congruence.
      * destruct IH as [e ->]; [by exists x|]. by exists e.
    + apply elem_of_cons in Hin as [|Hin]; [done|].
      destruct IH as [e ->]; [by exists x|]. by exists e.
Qed.

(** With scalars for values, the one way to throw is a variable that resolves
    nowhere. *)
Lemma render_throws_scalar (data : gmap string value) (pieces : list piece)
    (e : JsError) :
  (forall x v, Var x ∈ pieces -> resolves_to data x v ->
     is_scalar v = true) ->
  render data pieces = Throw e ->
  exists x, Var x ∈ pieces /\ data !! x = None /\ enclosing_scope x = None.
Proof.
  induction pieces as [|g pieces IH]; intros Hsc; [done|].
  assert (Hrest : render data pieces = Throw e ->
            exists x, Var x ∈ g :: pieces /\ data !! x = None /\
                      enclosing_scope x = None).
  { intros He. destruct IH as (x & Hx & ?); [|done|].
    - intros x v Hx. apply Hsc. by right.
    - exists x. split; [by right|done]. }
  destruct g as [s|z|z]; cbn [render].
  - destruct (render data pieces); [done|]. intros [= ->]. by apply Hrest.
  - destruct (resolve z data) as [v|e0] eqn:Ez.
    + destruct (interpolated_scalar v) as [s ->].
      { apply (Hsc z); [by left|]. by apply resolve_returns. }
      destruct (render data pieces); [done|]. intros [= ->]. by apply Hrest.
    + intros _. apply resolve_throws in Ez as (Hd & Hs & _).
      exists z. split; [by left|done].
  - destruct (render data pieces); [done|]. intros [= ->]. by apply Hrest.
Qed.

(** With scalars for values and every variable resolved, the template runs to
    its end. *)
Lemma render_resolved (data : gmap string value) (pieces : list piece) :
  (forall x v, Var x ∈ pieces -> resolves_to data x v ->
     is_scalar v = true) ->
  (forall x, Var x ∈ pieces ->
             is_Some (data !! x) \/ is_Some (enclosing_scope x)) ->
  exists out, render data pieces = Return out.
Proof.
  intros Hsc Hall.
  destruct (render data pieces) as [out|e] eqn:Er; [by exists out|].
  destruct (render_throws_scalar data pieces e Hsc Er) as (x & Hx & Hd & Hs).
  destruct (Hall x Hx) as [[v Hv]|[v Hv]]; congruence.
Qed.

(** Pieces that resolve to scalars are passed over; the first variable that
    resolves nowhere ends the run. *)
Lemma render_first_unresolved (data : gmap string value)
    (before after : list piece) (x : string) :
  (forall y, Var y ∈ before ->
     exists v, resolves_to data y v /\ is_scalar v = true) ->
  data !! x = None -> enclosing_scope x = None ->
  render data (before ++ Var x :: after) = Throw (ReferenceError x).
Proof.
  intros Hall Hd Hs. induction before as [|g before IH]; cbn [app render].
  - unfold resolve. by rewrite Hd, Hs.
  - rewrite IH by (intros y Hy; apply Hall; by right).
    destruct g as [s|z|z]; [done| |done].
    destruct (Hall z) as (v & Hv & Hsc); [by left|].
    apply resolve_returns in Hv as ->.
    by destruct (interpolated_scalar v Hsc) as [s ->].
Qed.

(** Reading the template is the only effect of [getFileContent]. *)
Lemma getFileContent_run (path : string)
    (variables : option (gmap string value)) (w : World) :
  getFileContent path variables w =
    (match fs_read (disk w) path with
     | Throw e => Throw e
     | Return text =>
         match variables with
         | None => Return (CBuffer {| bytes := text |})
         | Some data =>
             match template text data with
             | Return out => Return (CString out)
             | Throw e => Throw e
             end
         end
     end, w).
Proof.
  run. destruct (fs_read (disk w) path) as [text|e]; [|done].
  destruct variables as [data|]; [|done]. cbn.
  by destruct (template text data).
Qed.

(** A template in the fragment is rendered; an own [__p] of the data takes
    what was rendered. *)
Lemma template_run (source : string) (data : gmap string value)
    (pieces : list piece) :
  compile (utf8_decode source) = Some pieces ->
  template source data =
    match render data pieces with
    | Throw e => Throw e
    | Return out =>
        match data !! "__p" with
        | None => Return out
        | Some own =>
            match appended own with
            | Throw e => Throw e
            | Return _ => Return ""
            end
        end
    end.
Proof. intros Hc. unfold template. by rewrite Hc. Qed.


(** C6, as the code has it. Without variables [getFileContent] returns what
    [fs.readFileSync] gave it, unchanged: a [Buffer] holding the bytes of the
    file. *)
Theorem getFileContent_raw (w : World) (path text : string) :
  fs_read (disk w) path = Return text ->
  getFileContent path None w = (Return (CBuffer {| bytes := text |}), w) /\
  content_bytes (CBuffer {| bytes := text |}) = text.
Proof. intros Hr. by rewrite getFileContent_run, Hr. Qed.


(** C9, as the code has it. A template that holds no delimiter is returned
    unchanged as a string, the decoding of its bytes, whatever the variables
    hold beside an own [__p]; for a file that is well-formed UTF-8 these are
    the bytes of the [Buffer] the call without variables returns. *)
Theorem template_without_placeholders (w : World) (path bytes : string)
    (data : gmap string value) :
  fs_read (disk w) path = Return bytes ->
  has_pair "$" "{" (utf8_decode bytes) = false ->
  has_pair "<" "%" (utf8_decode bytes) = false ->
  data !! "__p" = None ->
  fst (getFileContent path (Some data) w) =
    Return (CString (utf8_decode bytes)) /\
  fst (getFileContent path None w) = Return (CBuffer {| bytes := bytes |}) /\
  (utf8_valid bytes = true ->
   content_bytes (CString (utf8_decode bytes)) =
     content_bytes (CBuffer {| bytes := bytes |})).
Proof.
  intros Hr Hd Hpct Hp. rewrite !getFileContent_run, Hr.
  rewrite (template_run bytes data [Lit (utf8_decode bytes)])
    by (by apply compile_text).
  cbn [fst render]. rewrite Hp, append_empty_r. split_and!; [done..|].
  intros Hv. cbn. unfold utf8_decode. by rewrite Hv.
Qed.

(** A name the variables do not hold is looked up in the enclosing scope
    before it is an error: where [undefined] is the global of that name,
    ["Hello ${undefined}"] renders with the placeholder left blank. *)
Lemma scope_binding_is_used (w : World) (path : string) :
  fs_read (disk w) path = Return "Hello ${undefined}" ->
  enclosing_scope "undefined" = Some VUndefined ->
  getFileContent path (Some ∅) w = (Return (CString "Hello "), w).
Proof.
  intros Hr Hs. rewrite getFileContent_run, Hr.
  rewrite (template_run _ _ [Lit "Hello "; Var "undefined"; Lit ""])
    by reflexivity.
  cbn [render]. unfold resolve. by rewrite !lookup_empty, Hs.
Qed.

(** [typeof] of a name that resolves nowhere is ['undefined'], not an
    error. *)
Lemma typeof_unresolved_is_rendered (w : World) (path : string) :
  fs_read (disk w) path = Return "Hello ${typeof missing}" ->
  enclosing_scope "missing" = None ->
  getFileContent path (Some ∅) w = (Return (CString "Hello undefined"), w).
Proof.
  intros Hr Hs. rewrite getFileContent_run, Hr.
  rewrite (template_run _ _ [Lit "Hello "; TypeofVar "missing"; Lit ""])
    by reflexivity.
  cbn [render]. unfold typeof_reference, resolve.
  by rewrite !lookup_empty, Hs.
Qed.

End Rendering.

(** ** Editing a file in place *)

Section Editing.
Context `{Libraries}.

Lemma editFile_run (type path str : string) (options : editer_options)
    (w : World) :
  editFile type path str options w =
    match fs_read (disk w) path with
    | Throw e => (Throw e, w)
    | Return text =>
        match updated type str text options with
        | Throw e => (Throw e, w)
        | Return v => writeFileSync path v w
        end
    end.
Proof.
  unfold editFile, updated, bind, readFileSync_utf8, lift, ret.
  destruct (fs_read (disk w) path) as [text|e]; [|done].
  destruct (String.eqb type "insert"); [by destruct editer_insert|].
  destruct (String.eqb type "remove"); [by destruct editer_remove|done].
Qed.

(** An error editer throws passes through [insertToFile] and
    [removeFromFile]; the file is not written. *)
Lemma edit_propagates (path str text : string) (options : editer_options)
    (w : World) (e : JsError) :
  fs_read (disk w) path = Return text ->
  (editer_insert str text options = Throw e ->
   insertToFile path str options w = (Throw e, w)) /\
  (editer_remove str text options = Throw e ->
   removeFromFile path str options w = (Throw e, w)).
Proof.
  intros Hr. unfold insertToFile, removeFromFile.
  rewrite !editFile_run, Hr. unfold updated. cbn.
  split; by intros ->.
Qed.

(** A text editer returns is written back, whether or not it differs from
    the text read: the module itself never checks that an anchor was found. *)
Lemma edit_writes_back (path str text out : string)
    (options : editer_options) (w : World) :
  fs_read (disk w) path = Return text ->
  fs_write (disk w) path = None ->
  write_fault path out (disk w) = None ->
  (editer_insert str text options = Return (VString out) ->
   fst (insertToFile path str options w) = Return tt /\
   fs_read (disk (snd (insertToFile path str options w))) path =
     Return out) /\
  (editer_remove str text options = Return (VString out) ->
   fst (removeFromFile path str options w) = Return tt /\
   fs_read (disk (snd (removeFromFile path str options w))) path =
     Return out).
Proof.
  intros Hr Hw Hf. unfold insertToFile, removeFromFile.
  rewrite !editFile_run, Hr. unfold updated, writeFileSync. cbn.
  split; intros ->; cbn; rewrite Hw, Hf; cbn; by rewrite String.eqb_refl.
Qed.

(** What one [editFile] call adds to the record of writes. *)
Lemma editFile_written (type path str : string) (options : editer_options)
    (w : World) (p : string) (d : value) :
  (p, d) ∈ written (snd (editFile type path str options w)) ->
  (p, d) ∈ written w \/
  exists text, p = path /\ fs_read (disk w) path = Return text /\
               updated type str text options = Return d.
Proof.
  rewrite editFile_run.
  destruct (fs_read (disk w) path) as [text|e]; [|by left].
  destruct (updated type str text options) as [v|e] eqn:Eu; [|by left].
  unfold writeFileSync.
  destruct (write_data v) as [s|e];
    [destruct (fs_write (disk w) path);
     [|destruct (write_fault path s (disk w)) as [[e d']|]]|];
    cbn; intros [[= -> ->]|Hin]%elem_of_cons;
    (by left) || (right; by exists text).
Qed.

(** C10. Let editer return strings. Then every write [insertToFile] and
    [removeFromFile] add is of the target path with the string editer
    returned for the text of the file, never [undefined]; when they return,
    the file holds that string. [editFile] leaves [updatedContent] undefined,
    and writes it, only for a [type] other than ['insert'] and ['remove'],
    which neither of the two passes. *)
Theorem public_edits_write_defined (path str : string)
    (options : editer_options) (w : World) :
  (forall s t o v, editer_insert s t o = Return v -> exists r, v = VString r) ->
  (forall s t o v, editer_remove s t o = Return v -> exists r, v = VString r) ->
  (forall p d,
     (p, d) ∈ written (snd (insertToFile path str options w)) ->
     (p, d) ∈ written w \/
     exists text r, p = path /\ d = VString r /\
       fs_read (disk w) path = Return text /\
       editer_insert str text options = Return (VString r)) /\
  (forall p d,
     (p, d) ∈ written (snd (removeFromFile path str options w)) ->
     (p, d) ∈ written w \/
     exists text r, p = path /\ d = VString r /\
       fs_read (disk w) path = Return text /\
       editer_remove str text options = Return (VString r)) /\
  (fst (insertToFile path str options w) = Return tt ->
   exists text r,
     fs_read (disk w) path = Return text /\
     editer_insert str text options = Return (VString r) /\
     written (snd (insertToFile path str options w)) =
       (path, VString r) :: written w /\
     fs_read (disk (snd (insertToFile path str options w))) path =
       Return r) /\
  (fst (removeFromFile path str options w) = Return tt ->
   exists text r,
     fs_read (disk w) path = Return text /\
     editer_remove str text options = Return (VString r) /\
     written (snd (removeFromFile path str options w)) =
       (path, VString r) :: written w /\
     fs_read (disk (snd (removeFromFile path str options w))) path =
       Return r) /\
  (forall type text,
     type ≠ "insert" -> type ≠ "remove" ->
     fs_read (disk w) path = Return text ->
     written (snd (editFile type path str options w)) =
       (path, VUndefined) :: written w).
Proof.
  intros Hins Hrem. unfold insertToFile, removeFromFile. split_and!.
  - intros p d [?|(text & -> & Hr & Hu)]%editFile_written; [by left|].
    right. cbn in Hu. destruct (Hins _ _ _ _ Hu) as [r ->]. by exists text, r.
  - intros p d [?|(text & -> & Hr & Hu)]%editFile_written; [by left|].
    right. cbn in Hu. destruct (Hrem _ _ _ _ Hu) as [r ->]. by exists text, r.
  - rewrite editFile_run.
    destruct (fs_read (disk w) path) as [text|e]; [|done]. cbn.
    destruct (editer_insert str text options) as [v|e] eqn:Eu; [|done].
    destruct (Hins _ _ _ _ Eu) as [r ->]. unfold writeFileSync. cbn.
    destruct (fs_write (disk w) path); [done|].
    destruct (write_fault path r (disk w)) as [[e d']|]; [done|].
    cbn. intros _. exists text, r. by rewrite String.eqb_refl.
  - rewrite editFile_run.
    destruct (fs_read (disk w) path) as [text|e]; [|done]. cbn.
    destruct (editer_remove str text options) as [v|e] eqn:Eu; [|done].
    destruct (Hrem _ _ _ _ Eu) as [r ->]. unfold writeFileSync. cbn.
    destruct (fs_write (disk w) path); [done|].
    destruct (write_fault path r (disk w)) as [[e d']|]; [done|].
    cbn. intros _. exists text, r. by rewrite String.eqb_refl.
  - intros type text Hi Hr Hread. rewrite editFile_run, Hread. unfold updated.
    apply String.eqb_neq in Hi, Hr. rewrite Hi, Hr. unfold writeFileSync.
    cbn. destruct (write_coerce VUndefined) as [s|e]; [|done].
    destruct (fs_write (disk w) path); [done|].
    by destruct (write_fault path s (disk w)) as [[e d']|].
Qed.

End Editing.

(** * The properties on concrete runs *)

Section Runs.
Import Fixture.

(** The merge at [{tabSize: 4}], in a process that has just started. *)
Lemma generateConfig_merge_witness :
  heap (started no_file) !! DEFAULT_CONFIG = Some DEFAULT_CONFIG_literal /\
  exists config merged,
    fst (generateConfig (VObject {[ "tabSize" := VNumber 4 ]})
           (started no_file)) = Return config /\
    heap (snd (generateConfig (VObject {[ "tabSize" := VNumber 4 ]})
                 (started no_file))) !! config = Some merged /\
    merged = {[ "tabSize" := VNumber 4; "storybook" := VBool false ]}.
Proof.
  split; [reflexivity|].
  destruct (generateConfig_merge {[ "tabSize" := VNumber 4 ]}
              (started no_file) eq_refl)
    as (config & merged & Hr & Hh & _ & _ & _ & _ & _ & _ & Hex).
  exists config, merged. split; [exact Hr|]. split; [exact Hh|].
  apply Hex. reflexivity.
Defined.

(** C1, after a [readConfig] that found [storybook: true]: for the overrides
    [{tabSize: 4}] the merge gives [{tabSize: 4, storybook: true}], where the
    default for [storybook] is [false]. *)
Theorem generateConfig_after_readConfig :
  let w1 :=
    snd (readConfig (started (one_file "./mantra_cli.yaml" "storybook: true")))
  in
  exists config,
    fst (generateConfig (VObject {[ "tabSize" := VNumber 4 ]}) w1) =
      Return config /\
    heap (snd (generateConfig (VObject {[ "tabSize" := VNumber 4 ]}) w1))
      !! config =
      Some {[ "tabSize" := VNumber 4; "storybook" := VBool true ]} /\
    heap (snd (generateConfig (VObject {[ "tabSize" := VNumber 4 ]}) w1))
      !! config ≠
      Some {[ "tabSize" := VNumber 4; "storybook" := VBool false ]}.
Proof.
  cbn zeta. eexists. split; [reflexivity|]. split; [reflexivity|].
  intros Heq.
  assert (Hs : (heap (snd (generateConfig
                  (VObject {[ "tabSize" := VNumber 4 ]})
                  (snd (readConfig
                     (started
                        (one_file "./mantra_cli.yaml" "storybook: true"))))))
                !!! 1) !! "storybook" = Some (VBool false)).
  { unfold lookup_total, map_lookup_total.
    change (fresh _) with 1 in Heq. rewrite Heq. reflexivity. }
  vm_compute in Hs. discriminate Hs.
Qed.

(** C2, at the configuration file [storybook: true]: after one [readConfig]
    the object [DEFAULT_CONFIG] is bound to no longer holds its literal. *)
Theorem readConfig_overwrites_DEFAULT_CONFIG :
  let w := started (one_file "./mantra_cli.yaml" "storybook: true") in
  heap w !! DEFAULT_CONFIG =
    Some {[ "tabSize" := VNumber 2; "storybook" := VBool false ]} /\
  fst (readConfig w) = Return DEFAULT_CONFIG /\
  heap (snd (readConfig w)) !! DEFAULT_CONFIG =
    Some {[ "tabSize" := VNumber 2; "storybook" := VBool true ]} /\
  heap (snd (readConfig w)) !! DEFAULT_CONFIG ≠ heap w !! DEFAULT_CONFIG.
Proof.
  cbn zeta. split_and!; [reflexivity..|].
  intros Heq.
  assert (Hs : (heap (snd (readConfig
                  (started (one_file "./mantra_cli.yaml" "storybook: true"))))
                !!! DEFAULT_CONFIG) !! "storybook" = Some (VBool false)).
  { unfold lookup_total, map_lookup_total. rewrite Heq. reflexivity. }
  vm_compute in Hs. discriminate Hs.
Qed.

(** C3, at a second call: the first [readConfig] found [storybook: true], the
    file is gone when the second runs, and the second returns
    [{tabSize: 2, storybook: true}]. *)
Theorem readConfig_absent_after_present :
  let w1 :=
    snd (readConfig (started (one_file "./mantra_cli.yaml" "storybook: true")))
  in
  let w2 := moved no_file w1 in
  fs_lstat (disk w2) "./mantra_cli.yaml" = Some (SystemError "ENOENT") /\
  exists config,
    fst (readConfig w2) = Return config /\
    heap (snd (readConfig w2)) !! config =
      Some {[ "tabSize" := VNumber 2; "storybook" := VBool true ]} /\
    heap (snd (readConfig w2)) !! config ≠ Some DEFAULT_CONFIG_literal.
Proof.
  cbn zeta. split; [reflexivity|]. exists DEFAULT_CONFIG.
  split_and!; [reflexivity..|].
  intros Heq.
  assert (Hs : (heap (snd (readConfig (moved no_file (snd (readConfig
                  (started
                     (one_file "./mantra_cli.yaml" "storybook: true")))))))
                !!! DEFAULT_CONFIG) !! "storybook" = Some (VBool false)).
  { unfold lookup_total, map_lookup_total. rewrite Heq. reflexivity. }
  vm_compute in Hs. discriminate Hs.
Qed.

(** C4 on a directory that cannot be examined and on an empty one. *)
Lemma only_ENOENT_is_recovered_witness :
  fst (readConfig (started denied)) = Throw (SystemError "EACCES") /\
  fst (checkFileExists "./mantra_cli.yaml" (started no_file)) = Return false /\
  fst (readConfig (started no_file)) = Return DEFAULT_CONFIG.
Proof.
  split; [|split].
  - apply (only_ENOENT_is_recovered "./mantra_cli.yaml" (started denied)).
    left. split; [reflexivity|discriminate].
  - apply (only_ENOENT_is_recovered "./mantra_cli.yaml" (started no_file)).
    exists (SystemError "ENOENT"). split; reflexivity.
  - apply (only_ENOENT_is_recovered "./mantra_cli.yaml" (started no_file)).
    exists (SystemError "ENOENT"). split; reflexivity.
Defined.



(** C6 as the specification words it fails: the value returned is not a
    string. *)
Lemma getFileContent_raw_counterexample :
  ~ (forall (w : World) (path text : string),
       fs_read (disk w) path = Return text ->
       fst (getFileContent (H := libraries) path None w) =
         Return (CString text)).
Proof.
  intros claim.
  pose proof (claim (started (one_file "t.tt" "Hello")) "t.tt" "Hello"
                eq_refl) as He.
  vm_compute in He. discriminate He.
Qed.

(** C6 on a file that holds ["Hello"]. *)
Lemma getFileContent_raw_witness :
  getFileContent "t.tt" None (started (one_file "t.tt" "Hello")) =
  (Return (CBuffer {| bytes := "Hello" |}),
   started (one_file "t.tt" "Hello")).
Proof.
  apply (getFileContent_raw (started (one_file "t.tt" "Hello")) "t.tt").
  reflexivity.
Defined.


(** C9 as the specification words it fails: the variables supply nothing
    ["Hello ${missing}"] refers to, and the call throws instead of returning
    the text. Nor is a template without placeholders returned for every
    variable mapping: with an own [__p] in the variables, ["Hello"] renders
    as the empty string. *)
Lemma unsupplied_placeholder_counterexample :
  ~ (forall (w : World) (path text : string) (data : gmap string value),
       fs_read (disk w) path = Return text ->
       (forall x, x ∈ referenced text -> data !! x = None) ->
       exists rendered raw,
         fst (getFileContent (H := libraries) path (Some data) w) =
           Return rendered /\
         fst (getFileContent (H := libraries) path None w) = Return raw /\
         content_bytes rendered = text /\
         content_bytes rendered = content_bytes raw) /\
  ~ (forall (w : World) (path text : string) (data : gmap string value),
       fs_read (disk w) path = Return text ->
       referenced text = [] ->
       exists rendered raw,
         fst (getFileContent (H := libraries) path (Some data) w) =
           Return rendered /\
         fst (getFileContent (H := libraries) path None w) = Return raw /\
         content_bytes rendered = text /\
         content_bytes rendered = content_bytes raw).
Proof.
  split; intros claim.
  - destruct (claim (started (one_file "t.tt" "Hello ${missing}")) "t.tt"
                "Hello ${missing}" ∅) as (rendered & raw & He & _).
    + reflexivity.
    + intros x _. apply lookup_empty.
    + vm_compute in He. discriminate He.
  - destruct (claim (started (one_file "t.tt" "Hello")) "t.tt" "Hello"
                {[ "__p" := VString "zzz" ]})
      as (rendered & raw & He & _ & Hb & _).
    + reflexivity.
    + reflexivity.
    + vm_compute in He. injection He as <-. discriminate Hb.
Qed.

(** C9 on a template that holds no placeholder. *)
Lemma template_without_placeholders_witness :
  fst (getFileContent "t.tt" (Some {[ "name" := VString "Sam" ]})
         (started (one_file "t.tt" "Hello world"))) =
    Return (CString "Hello world") /\
  fst (getFileContent "t.tt" None (started (one_file "t.tt" "Hello world"))) =
    Return (CBuffer {| bytes := "Hello world" |}).
Proof.
  destruct (template_without_placeholders
              (started (one_file "t.tt" "Hello world")) "t.tt" "Hello world"
              {[ "name" := VString "Sam" ]})
    as (Hwith & Hwithout & _); [reflexivity..|].
  split; [exact Hwith|exact Hwithout].
Defined.

(** C10 with the stand-in for editer, which returns strings. *)
Lemma public_edits_write_defined_witness :
  written (snd (insertToFile "index.js" "X" tt
                  (started (one_file "index.js" "ANCHOR")))) =
    [("index.js", VString "ANCHORX")] /\
  written (snd (removeFromFile "index.js" "X" tt
                  (started (one_file "index.js" "ANCHOR")))) =
    [("index.js", VString "ANCHOR")].
Proof.
  assert (Hi : forall (s t : string) (o : unit) (v : value),
             insert s t o = Return v -> exists r, v = VString r).
  { intros s t o v Hv. exists (t +:+ s). injection Hv as <-. reflexivity. }
  assert (Hr : forall (s t : string) (o : unit) (v : value),
             remove s t o = Return v -> exists r, v = VString r).
  { intros s t o v Hv. exists t. injection Hv as <-. reflexivity. }
  destruct (public_edits_write_defined (H := libraries) "index.js" "X" tt
              (started (one_file "index.js" "ANCHOR")) Hi Hr)
    as (_ & _ & Hins & Hrem & _).
  split.
  - destruct (Hins eq_refl) as (text & r & Hread & Hed & Hw & _).
    injection Hread as <-. injection Hed as <-. exact Hw.
  - destruct (Hrem eq_refl) as (text & r & Hread & Hed & Hw & _).
    injection Hread as <-. injection Hed as <-. exact Hw.
Defined.

End Runs.

(** * Further properties of the configuration functions *)

Section MoreConfig.
Context `{Libraries}.

(** X1. A configuration file whose document is empty, or any other falsy
    value, counts as no file: [readConfig] returns the default object and
    changes nothing. *)
Theorem readConfig_empty_document (w : World) (text : string) (doc : value) :
  fs_lstat (disk w) "./mantra_cli.yaml" = None ->
  fs_read (disk w) "./mantra_cli.yaml" = Return text ->
  yaml_safeLoad text = Return doc ->
  truthy doc = false ->
  readConfig w = (Return DEFAULT_CONFIG, w).
Proof.
  intros Hl Hr Hy Ht. unfold readConfig, bind.
  rewrite checkFileExists_run, Hl. run. by rewrite Hr, Hy, Ht.
Qed.

(** X2. With a configuration file that holds a mapping, the configuration
    returned is the mapping laid over what [DEFAULT_CONFIG] held: every key
    of the file has the file's value, known or not, and every other key keeps
    its value. The file system is as it was. *)
Theorem readConfig_mapping (w : World) (text : string)
    (o d : gmap string value) :
  fs_lstat (disk w) "./mantra_cli.yaml" = None ->
  fs_read (disk w) "./mantra_cli.yaml" = Return text ->
  yaml_safeLoad text = Return (VObject o) ->
  heap w !! DEFAULT_CONFIG = Some d ->
  exists config merged,
    fst (readConfig w) = Return config /\
    heap (snd (readConfig w)) !! config = Some merged /\
    (forall k v, o !! k = Some v -> merged !! k = Some v) /\
    (forall k, o !! k = None -> merged !! k = d !! k) /\
    dom merged = dom o ∪ dom d /\
    disk (snd (readConfig w)) = disk w.
Proof.
  intros Hl Hr Hy Hd.
  destruct (readConfig_present w text (VObject o) Hl Hr Hy eq_refl)
    as [Hret Hheap].
  exists DEFAULT_CONFIG, (o ∪ d). rewrite Hheap. split_and!.
  - done.
  - rewrite lookup_alter, decide_True, Hd; done.
  - intros k v Hk. by apply lookup_union_Some_l.
  - intros k Hk. by apply lookup_union_r.
  - apply dom_union_L.
  - unfold readConfig, bind. rewrite checkFileExists_run, Hl. run.
    by rewrite Hr, Hy.
Qed.

(** X3. [readConfig] reads: it never changes the file system, writes no file,
    and touches no object but the one [DEFAULT_CONFIG] is bound to. When it
    throws it has changed nothing at all. *)
Theorem readConfig_footprint (w : World) :
  disk (snd (readConfig w)) = disk w /\
  written (snd (readConfig w)) = written w /\
  (forall l, l ≠ DEFAULT_CONFIG ->
     heap (snd (readConfig w)) !! l = heap w !! l) /\
  (forall e, fst (readConfig w) = Throw e -> snd (readConfig w) = w).
Proof.
  unfold readConfig, bind. rewrite checkFileExists_run.
  destruct (fs_lstat (disk w) "./mantra_cli.yaml") as [e0|].
  - by destruct (is_ENOENT e0).
  - run. destruct (fs_read (disk w) "./mantra_cli.yaml") as [text|e1]; [|done].
    destruct (yaml_safeLoad text) as [doc|e2]; [|done]. cbn.
    destruct (truthy doc); cbn; split_and!; try done.
    intros l Hl. by rewrite lookup_alter, decide_False.
Qed.

(** X4. Configurations that [generateConfig] returns do not share: after two
    calls the two results are different objects, each holds its own overrides
    over the default, and every object that was there before is as it was. *)
Theorem generateConfig_results_are_separate (w : World)
    (O1 O2 d : gmap string value) :
  heap w !! DEFAULT_CONFIG = Some d ->
  exists c1 c2,
    fst (generateConfig (VObject O1) w) = Return c1 /\
    fst (generateConfig (VObject O2)
           (snd (generateConfig (VObject O1) w))) = Return c2 /\
    c1 ≠ c2 /\
    let w2 := snd (generateConfig (VObject O2)
                     (snd (generateConfig (VObject O1) w))) in
    heap w2 !! c1 = Some (O1 ∪ d) /\
    heap w2 !! c2 = Some (O2 ∪ d) /\
    (forall l, l ∈ dom (heap w) -> heap w2 !! l = heap w !! l).
Proof.
  intros Hd.
  set (w1 := snd (generateConfig (VObject O1) w)).
  destruct (generateConfig_run (VObject O1) w) as (Hr1 & Hh1 & _).
  destruct (generateConfig_run (VObject O2) w1) as (Hr2 & Hh2 & _).
  cbn [truthy own_props] in Hh1, Hh2. fold w1 in Hh1.
  assert (Hin : DEFAULT_CONFIG ∈ dom (heap w)).
  { apply elem_of_dom. by rewrite Hd. }
  assert (Hk1 : heap w1 !! DEFAULT_CONFIG = Some d).
  { unfold w1. by rewrite generateConfig_keeps_default. }
  rewrite (lookup_total_correct _ _ _ Hd) in Hh1.
  rewrite (lookup_total_correct _ _ _ Hk1) in Hh2.
  assert (Hc1 : fresh (dom (heap w)) ∈ dom (heap w1)).
  { apply elem_of_dom. by rewrite Hh1. }
  assert (Hne : fresh (dom (heap w)) ≠ fresh (dom (heap w1))).
  { intros Heq. apply (is_fresh (dom (heap w1))). by rewrite <- Heq. }
  assert (Hframe : forall l, l ∈ dom (heap w1) ->
            heap (snd (generateConfig (VObject O2) w1)) !! l = heap w1 !! l).
  { intros l Hl. run. cbn.
    assert (fresh (dom (heap w1)) ≠ l).
    { intros Heq. apply (is_fresh (dom (heap w1))). by rewrite Heq. }
    rewrite lookup_alter, decide_False by done. by rewrite lookup_insert_ne. }
  exists (fresh (dom (heap w))), (fresh (dom (heap w1))).
  do 3 (split; [done|]). cbn zeta. fold w1. split_and!.
  - by rewrite (Hframe _ Hc1).
  - done.
  - intros l Hl.
    assert (Hl1 : heap w1 !! l = heap w !! l).
    { unfold w1. run. cbn.
      assert (fresh (dom (heap w)) ≠ l).
      { intros Heq. apply (is_fresh (dom (heap w))). by rewrite Heq. }
      rewrite lookup_alter, decide_False by done. by rewrite lookup_insert_ne. }
    rewrite Hframe, Hl1; [done|].
    apply elem_of_dom. rewrite Hl1. by apply elem_of_dom.
Qed.

(** X5. Overrides without own properties ([undefined], [null], [{}], a number,
    a boolean) give the default: [getCustomConfig] prints what
    [DEFAULT_CONFIG] holds. Whatever the overrides, it leaves the file system
    and every object there was untouched. *)
Theorem getCustomConfig_without_overrides (w : World) (overrides : value)
    (d : gmap string value) :
  heap w !! DEFAULT_CONFIG = Some d ->
  own_props overrides = ∅ ->
  fst (getCustomConfig overrides w) = yaml_safeDump d /\
  disk (snd (getCustomConfig overrides w)) = disk w /\
  written (snd (getCustomConfig overrides w)) = written w /\
  (forall l, l ∈ dom (heap w) ->
     heap (snd (getCustomConfig overrides w)) !! l = heap w !! l).
Proof.
  intros Hd Hown. unfold getCustomConfig.
  set (o := match overrides with
            | VUndefined => VObject ∅
            | _ => overrides
            end).
  assert (Ho : own_props o = ∅) by (by destruct overrides).
  destruct (generateConfig_run o w) as (Hr & Hh & Hdisk).
  rewrite Ho, (lookup_total_correct _ _ _ Hd), (left_id_L ∅ (∪)) in Hh.
  assert (Hh' : heap (snd (generateConfig o w)) !! fresh (dom (heap w))
                = Some d) by (by destruct (truthy o)).
  assert (Hframe : forall l, l ∈ dom (heap w) ->
            heap (snd (generateConfig o w)) !! l = heap w !! l).
  { intros l Hl. run.
    assert (fresh (dom (heap w)) ≠ l).
    { intros Heq. apply (is_fresh (dom (heap w))). by rewrite Heq. }
    destruct (truthy o); cbn.
    - rewrite lookup_alter, decide_False by done. by rewrite lookup_insert_ne.
    - by rewrite lookup_insert_ne. }
  assert (Hw : written (snd (generateConfig o w)) = written w).
  { run. by destruct (truthy o). }
  unfold bind.
  destruct (generateConfig o w) as [[c|e] w'] eqn:E; cbn in *; [|done].
  injection Hr as ->. by rewrite (lookup_total_correct _ _ _ Hh').
Qed.

End MoreConfig.

(** * Further properties of rendering *)

Section MoreRendering.
Context `{Libraries}.

(** X7. For a template made of text and placeholders that hold a variable or
    [typeof] of a variable, when the values the variables resolve to are
    strings, numbers, booleans, [null] or [undefined] and the data has no own
    [__p]: rendering throws if and only if some variable is neither an own
    property of the data nor bound in the enclosing scope, and returns a
    string when every variable resolves. *)
Theorem rendering_throws_iff_unresolved (w : World) (path bytes : string)
    (data : gmap string value) (pieces : list piece) :
  fs_read (disk w) path = Return bytes ->
  compile (utf8_decode bytes) = Some pieces ->
  (forall x v, Var x ∈ pieces ->
     data !! x = Some v \/ (data !! x = None /\ enclosing_scope x = Some v) ->
     is_scalar v = true) ->
  data !! "__p" = None ->
  ((exists e, fst (getFileContent path (Some data) w) = Throw e) <->
   (exists x, Var x ∈ pieces /\ data !! x = None /\
              enclosing_scope x = None)) /\
  ((forall x, Var x ∈ pieces ->
      is_Some (data !! x) \/ is_Some (enclosing_scope x)) ->
   exists out, fst (getFileContent path (Some data) w) = Return (CString out)).
Proof.
  intros Hr Hc Hsc Hp.
  rewrite getFileContent_run, Hr, (template_run _ _ _ Hc), Hp. cbn [fst].
  split.
  - split.
    + intros [e He].
      destruct (render data pieces) as [out|e'] eqn:Er; [done|].
      by apply (render_throws_scalar data pieces e').
    + intros Hx. destruct (render_unresolved data pieces Hx) as [e ->].
      by exists e.
  - intros Hall.
    destruct (render_resolved data pieces Hsc Hall) as [out ->].
    by exists out.
Qed.

(** X8. The error names the leftmost variable that resolves nowhere: when the
    variables before it resolve to strings, numbers, booleans, [null] or
    [undefined], they are passed over, and what comes after it is never
    looked at. *)
Theorem first_unresolved_placeholder_is_named (w : World) (path bytes : string)
    (data : gmap string value) (before after : list piece) (x : string) :
  fs_read (disk w) path = Return bytes ->
  compile (utf8_decode bytes) = Some (before ++ Var x :: after)%list ->
  (forall y, Var y ∈ before ->
     exists v,
       (data !! y = Some v \/
        (data !! y = None /\ enclosing_scope y = Some v)) /\
       is_scalar v = true) ->
  data !! x = None ->
  enclosing_scope x = None ->
  fst (getFileContent path (Some data) w) = Throw (ReferenceError x).
Proof.
  intros Hr Hc Hall Hd Hs.
  rewrite getFileContent_run, Hr, (template_run _ _ _ Hc).
  by rewrite (render_first_unresolved data before after x Hall Hd Hs).
Qed.

End MoreRendering.

(** * Further properties of the edits *)

Section MoreEditing.
Context `{Libraries}.

(** What one [fs.writeFileSync] call does to the process. *)
Lemma writeFileSync_effect (path : string) (data : value) (w : World) :
  heap (snd (writeFileSync path data w)) = heap w /\
  written (snd (writeFileSync path data w)) = (path, data) :: written w /\
  (forall e, fst (writeFileSync path data w) = Throw e ->
     disk (snd (writeFileSync path data w)) = disk w \/
     exists s, write_data data = Return s /\
       write_fault path s (disk w) =
         Some (e, disk (snd (writeFileSync path data w)))).
Proof.
  unfold writeFileSync.
  destruct (write_data data) as [s|e0]; [|by split_and!; [| |left]].
  destruct (fs_write (disk w) path) as [e1|]; [by split_and!; [| |left]|].
  destruct (write_fault path s (disk w)) as [[e2 d']|] eqn:Ef; cbn.
  - split_and!; [done..|]. intros e [= <-]. right. by exists s.
  - by split_and!.
Qed.

(** X10. An edit that throws has changed no file unless the write failed
    after the file was opened: when reading the file or editer throws, when
    the data cannot be written or the file cannot be opened, the file system
    is as it was. *)
Theorem failed_edit_keeps_files (path str : string)
    (options : editer_options) (w : World) (e : JsError) :
  (fst (insertToFile path str options w) = Throw e ->
   disk (snd (insertToFile path str options w)) = disk w \/
   exists text v s,
     fs_read (disk w) path = Return text /\
     editer_insert str text options = Return v /\
     write_data v = Return s /\
     write_fault path s (disk w) =
       Some (e, disk (snd (insertToFile path str options w)))) /\
  (fst (removeFromFile path str options w) = Throw e ->
   disk (snd (removeFromFile path str options w)) = disk w \/
   exists text v s,
     fs_read (disk w) path = Return text /\
     editer_remove str text options = Return v /\
     write_data v = Return s /\
     write_fault path s (disk w) =
       Some (e, disk (snd (removeFromFile path str options w)))).
Proof.
  unfold insertToFile, removeFromFile. rewrite !editFile_run.
  destruct (fs_read (disk w) path) as [text|e0]; [|by split; left].
  unfold updated. cbn. split.
  - destruct (editer_insert str text options) as [v|e1] eqn:Ee; [|by left].
    intros He.
    destruct (writeFileSync_effect path v w) as (_ & _ & Hf).
    destruct (Hf e He) as [?|(s & ? & ?)]; [by left|]. right.
    by exists text, v, s.
  - destruct (editer_remove str text options) as [v|e1] eqn:Ee; [|by left].
    intros He.
    destruct (writeFileSync_effect path v w) as (_ & _ & Hf).
    destruct (Hf e He) as [?|(s & ? & ?)]; [by left|]. right.
    by exists text, v, s.
Qed.

(** X11. [editFile] changes no object on the heap and makes at most one
    [fs.writeFileSync] call, which is to the path it was given. *)
Theorem edit_touches_one_file (type path str : string)
    (options : editer_options) (w : World) :
  heap (snd (editFile type path str options w)) = heap w /\
  (written (snd (editFile type path str options w)) = written w \/
   exists data,
     written (snd (editFile type path str options w)) =
       (path, data) :: written w).
Proof.
  rewrite editFile_run.
  destruct (fs_read (disk w) path) as [text|e0]; [|by split; [|left]].
  destruct (updated type str text options) as [v|e1];
    [|by split; [|left]].
  destruct (writeFileSync_effect path v w) as (Hh & Hw & _).
  split; [done|]. right. by exists v.
Qed.

End MoreEditing.

(** * The strings of the scaffolding functions *)

Section Strings.
Import Text.

Lemma starts_with_spec (p s : string) :
  starts_with p s = true <-> exists r, s = p +:+ r.
Proof.
  revert s. induction p as [|a p IH]; intros s.
  - split; [|done]. intros _. by exists s.
  - destruct s as [|b s]; cbn [starts_with].
    + split; [done|]. by intros [r Hr].
    + rewrite andb_true_iff, IH. split.
      * intros [Hab [r ->]]. apply Ascii.eqb_eq in Hab as ->. by exists r.
      * intros [r Hr]. rewrite append_cons in Hr. injection Hr as -> ->.
        split; [apply Ascii.eqb_refl|by exists r].
Qed.

(** One leading ["./"] is dropped, and nothing else is changed. *)
Lemma strip_dot_slash_spec (p : string) :
  p = "./" +:+ strip_dot_slash p \/
  (starts_with "./" p = false /\ strip_dot_slash p = p).
Proof.
  destruct p as [|a [|b r]]; [by right|right|].
  - cbn [starts_with]. rewrite andb_false_r. split; [done|].
    by destruct a as [[] [] [] [] [] [] [] []].
  - destruct (Ascii.eqb_spec "." a) as [<-|Ha].
    + destruct (Ascii.eqb_spec "/" b) as [<-|Hb]; [by left|].
      right. cbn [starts_with]. rewrite Ascii.eqb_refl.
      pose proof Hb as Hb'. apply Ascii.eqb_neq in Hb' as ->.
      split; [done|]. by destruct b as [[] [] [] [] [] [] [] []].
    + right. cbn [starts_with].
      pose proof Ha as Ha'. apply Ascii.eqb_neq in Ha' as ->.
      split; [done|]. by destruct a as [[] [] [] [] [] [] [] []].
Qed.

Lemma has_char_suffix (a : Ascii.ascii) (s t : string) :
  has_char a (s +:+ t) = false -> has_char a t = false.
Proof. rewrite has_char_append. by intros [_ ?]%orb_false_elim. Qed.

Lemma has_char_prefix (a : Ascii.ascii) (s t : string) :
  has_char a (s +:+ t) = false -> has_char a s = false.
Proof. rewrite has_char_append. by intros [? _]%orb_false_elim. Qed.




(** What is cut off starts at a dot; what is kept is the beginning. *)
Lemma strip_extension_prefix (s : string) :
  strip_extension s = s \/
  exists ext, s = strip_extension s +:+ String "." ext.
Proof.
  induction s as [|c s IH]; [by left|]. cbn [strip_extension].
  destruct (Ascii.eqb_spec c ".") as [->|Hc]; cbn [andb].
  - destruct (has_line_terminator s) eqn:E; cbn [negb].
    + destruct IH as [->|[ext Hext]]; [by left|].
      right. exists ext. by rewrite append_cons, <- Hext.
    + right. by exists s.
  - destruct IH as [->|[ext Hext]]; [by left|].
    right. exists ext. by rewrite append_cons, <- Hext.
Qed.





End Strings.

Section MoreStrings.
Import Text.





(** An element that holds a space joins like two elements. *)
Lemma join_space (l1 l2 : list value) (a b : string) :
  join " " (l1 ++ VString (a +:+ " " +:+ b) :: l2) =
  join " " (l1 ++ VString a :: VString b :: l2).
Proof.
  unfold join. induction l1 as [|y l1 IH].
  - cbn [app map element_String to_String].
    destruct l2 as [|z l2]; cbn [map String.concat]; [done|].
    by rewrite !append_assoc.
  - cbn [app map]. destruct l1 as [|y' l1]; cbn [app map String.concat] in *.
    + by rewrite IH.
    + by rewrite IH.
Qed.

End MoreStrings.

(** * Directories, files from templates, commands *)

Section MoreScaffold.
Import Text Scaffold.
Context `{Libraries} `{Shell}.


Lemma world_eta (w : World) :
  {| heap := heap w; disk := disk w; written := written w |} = w.
Proof. by destruct w. Qed.

(** X12. [createDir] creates first and notifies after: when
    [mkdirsSync] throws, the error is passed on and nothing is notified; when
    it returns, one notification follows, for the path without one leading
    ["./"] and with a ["/"] added to its end. *)
Theorem createDir_notifies_after_creating (path : string) (r : Run) :
  (forall e, fst (fsx_mkdirsSync path (disk (world r))) = Throw e ->
     fst (createDir path r) = Throw e /\
     calls (snd (createDir path r)) = mkdirsSync_call path :: calls r) /\
  (fst (fsx_mkdirsSync path (disk (world r))) = Return tt ->
   exists d,
     (path = "./" +:+ d \/ (starts_with "./" path = false /\ path = d)) /\
     fst (createDir path r) = Return tt /\
     calls (snd (createDir path r)) =
       logger_create (d +:+ "/") :: mkdirsSync_call path :: calls r).
Proof.
  unfold createDir, mkdirsSync, Logger.create, bind_h, record, on_disk.
  cbn [world calls disk fst snd].
  destruct (fsx_mkdirsSync path (disk (world r))) as [[[]|e0] d']; cbn; split.
  - done.
  - intros _. exists (strip_dot_slash path). split; [|done].
    destruct (strip_dot_slash_spec path) as [Hp|[Hs Hp]]; [by left|].
    right. by rewrite Hp.
  - by intros e [= <-].
  - done.
Qed.


(** X14. [executeCommand] notifies before it runs the command: the
    notification is there also when the command fails, whose error is passed
    on. The command and the options reach [execSync] as given, and no object
    and no record of writes changes. *)
Theorem executeCommand_notifies_first (cmd : string) (options : value)
    (r : Run) :
  calls (snd (executeCommand cmd options r)) =
    execSync_call cmd options :: logger_run cmd :: calls r /\
  fst (executeCommand cmd options r) =
    fst (child_execSync cmd options (disk (world r))) /\
  heap (world (snd (executeCommand cmd options r))) = heap (world r) /\
  written (world (snd (executeCommand cmd options r))) = written (world r).
Proof.
  unfold executeCommand, execSync, Logger.run, bind_h, record, on_disk.
  cbn [world calls disk fst snd].
  by destruct (child_execSync cmd options (disk (world r))) as [[[]|e0] d'].
Qed.

(** The two calls [runScriptFile] makes. *)
Lemma runScriptFile_calls (pathToScript : string) (args : option (list value))
    (options : value) (r : Run) :
  calls (snd (runScriptFile pathToScript args options r)) =
    execSync_call
      ((if isWindows then "" else "bash") +:+ " " +:+ pathToScript +:+ " "
       +:+ join " " (match args with Some a => a | None => [] end))
      (match options with VUndefined => VObject ∅ | _ => options end)
    :: logger_invoke (strip_extension (basename pathToScript)) :: calls r.
Proof.
  unfold runScriptFile, execSync, Logger.invoke, bind_h, record, on_disk.
  cbn [world calls disk fst snd].
  by destruct (child_execSync _ _ (disk (world r))) as [[[]|e0] d'].
Qed.



(** X17. Arguments reach the command line unquoted: an argument that holds a
    space runs the same command, with the same notification, as the two
    arguments on either side of that space. *)
Theorem script_arguments_are_not_quoted (pathToScript a b : string)
    (before after : list value) (options : value) (r : Run) :
  runScriptFile pathToScript
    (Some (before ++ VString (a +:+ " " +:+ b) :: after)%list) options r =
  runScriptFile pathToScript
    (Some (before ++ VString a :: VString b :: after)%list) options r.
Proof. unfold runScriptFile. by rewrite join_space. Qed.

Lemma join_strings (separator : string) (words : list string) :
  join separator (VString <$> words) = String.concat separator words.
Proof.
  unfold join. f_equal. induction words as [|s words IH]; [done|].
  rewrite fmap_cons. cbn [map element_String to_String]. by rewrite IH.
Qed.

(** X18. [runScriptFile] notifies, then runs one command, whose outcome is
    its own. For arguments that are strings the command is, off Windows,
    [bash], the path and the arguments, each after one space; on Windows the
    same without [bash], so with a space first. Arguments left out are no
    arguments, and options left out are passed as [{}]. *)
Theorem runScriptFile_command (pathToScript : string) (words : list string)
    (options : value) (r : Run) :
  (isWindows = false ->
   (exists name,
      calls (snd (runScriptFile pathToScript (Some (VString <$> words))
                    options r)) =
        execSync_call
          ("bash " +:+ pathToScript +:+ " " +:+ String.concat " " words)
          (match options with VUndefined => VObject ∅ | _ => options end)
        :: logger_invoke name :: calls r) /\
   fst (runScriptFile pathToScript (Some (VString <$> words)) options r) =
     fst (child_execSync
            ("bash " +:+ pathToScript +:+ " " +:+ String.concat " " words)
            (match options with VUndefined => VObject ∅ | _ => options end)
            (disk (world r)))) /\
  (isWindows = true ->
   (exists name,
      calls (snd (runScriptFile pathToScript (Some (VString <$> words))
                    options r)) =
        execSync_call
          (" " +:+ pathToScript +:+ " " +:+ String.concat " " words)
          (match options with VUndefined => VObject ∅ | _ => options end)
        :: logger_invoke name :: calls r) /\
   fst (runScriptFile pathToScript (Some (VString <$> words)) options r) =
     fst (child_execSync
            (" " +:+ pathToScript +:+ " " +:+ String.concat " " words)
            (match options with VUndefined => VObject ∅ | _ => options end)
            (disk (world r)))) /\
  runScriptFile pathToScript None options r =
    runScriptFile pathToScript (Some []) options r.
Proof.
  split_and!; [intros Hw..|done].
  all: split; [eexists; rewrite runScriptFile_calls, Hw, join_strings; done|].
  all: unfold runScriptFile, execSync, Logger.invoke, bind_h, record, on_disk.
  all: cbn [world calls disk fst snd]; rewrite Hw, join_strings.
  all: by destruct (child_execSync _ _ (disk (world r))) as [[[]|e0] d'].
Qed.

(** X19. The host counts as Windows exactly when the name of its platform
    begins with [win], so [darwin] does not; the line break is CR LF exactly
    then, and LF otherwise. *)
Theorem line_break_by_platform :
  (isWindows = true <-> exists rest, process_platform = "win" +:+ rest) /\
  (getLineBreak = String "013" (String "010" "") <-> isWindows = true) /\
  (getLineBreak = String "010" "" <-> isWindows = false) /\
  (process_platform = "darwin" -> isWindows = false) /\
  (process_platform = "win32" -> isWindows = true).
Proof.
  unfold getLineBreak, isWindows. split_and!.
  - apply starts_with_spec.
  - by destruct (starts_with "win" process_platform).
  - by destruct (starts_with "win" process_platform).
  - by intros ->.
  - by intros ->.
Qed.

End MoreScaffold.

(** * The further properties on concrete runs *)

Section MoreRuns.
Import Fixture FixtureHost Text Scaffold.

(** X1 on an empty configuration file. *)
Lemma readConfig_empty_document_witness :
  readConfig (started (one_file "./mantra_cli.yaml" "")) =
  (Return DEFAULT_CONFIG, started (one_file "./mantra_cli.yaml" "")).
Proof.
  apply (readConfig_empty_document
           (started (one_file "./mantra_cli.yaml" "")) "" VUndefined);
    reflexivity.
Defined.

(** X2 on the configuration file [storybook: true]. *)
Lemma readConfig_mapping_witness :
  exists config merged,
    fst (readConfig (started (one_file "./mantra_cli.yaml" "storybook: true")))
      = Return config /\
    heap (snd (readConfig
                 (started (one_file "./mantra_cli.yaml" "storybook: true"))))
      !! config = Some merged /\
    merged !! "storybook" = Some (VBool true) /\
    merged !! "tabSize" = Some (VNumber 2).
Proof.
  destruct (readConfig_mapping
              (started (one_file "./mantra_cli.yaml" "storybook: true"))
              "storybook: true" {[ "storybook" := VBool true ]}
              DEFAULT_CONFIG_literal)
    as (config & merged & Hr & Hh & Hkeys & Hrest & _);
    [reflexivity..|].
  exists config, merged. split; [exact Hr|]. split; [exact Hh|]. split.
  - apply Hkeys. reflexivity.
  - rewrite Hrest; reflexivity.
Defined.

(** X3 in a directory that cannot be examined. *)
Lemma readConfig_footprint_witness :
  snd (readConfig (started denied)) = started denied.
Proof.
  apply (readConfig_footprint (started denied)) with (SystemError "EACCES").
  reflexivity.
Defined.

(** X4 for [{tabSize: 4}] and then [{storybook: true}]. *)
Lemma generateConfig_results_are_separate_witness :
  exists c1 c2,
    fst (generateConfig (VObject {[ "tabSize" := VNumber 4 ]})
           (started no_file)) = Return c1 /\
    fst (generateConfig (VObject {[ "storybook" := VBool true ]})
           (snd (generateConfig (VObject {[ "tabSize" := VNumber 4 ]})
                   (started no_file)))) = Return c2 /\
    c1 ≠ c2.
Proof.
  destruct (generateConfig_results_are_separate (started no_file)
              {[ "tabSize" := VNumber 4 ]} {[ "storybook" := VBool true ]}
              DEFAULT_CONFIG_literal eq_refl)
    as (c1 & c2 & H1 & H2 & Hne & _).
  exists c1, c2. split; [exact H1|]. split; [exact H2|exact Hne].
Defined.

(** X5 for [null]. *)
Lemma getCustomConfig_without_overrides_witness :
  fst (getCustomConfig VNull (started no_file)) =
  yaml_safeDump DEFAULT_CONFIG_literal.
Proof.
  apply (getCustomConfig_without_overrides (started no_file) VNull
           DEFAULT_CONFIG_literal); reflexivity.
Defined.

(** X7 at ["Hello ${missing}"] with no variables. *)
Lemma rendering_throws_iff_unresolved_witness :
  exists e,
    fst (getFileContent "t.tt" (Some ∅)
           (started (one_file "t.tt" "Hello ${missing}"))) = Throw e.
Proof.
  apply (rendering_throws_iff_unresolved
           (started (one_file "t.tt" "Hello ${missing}")) "t.tt"
           "Hello ${missing}" ∅
           [Lit "Hello "; Var "missing"; Lit ""] eq_refl eq_refl).
  - intros x v Hx [Hd|[_ Hs]]; [discriminate Hd|].
    apply elem_of_cons in Hx as [Hx|Hx]; [discriminate Hx|].
    apply elem_of_cons in Hx as [Hx|Hx].
    + injection Hx as ->. discriminate Hs.
    + apply elem_of_cons in Hx as [Hx|Hx]; [discriminate Hx|].
      apply elem_of_nil in Hx. destruct Hx.
  - reflexivity.
  - exists "missing". split; [right; left|split; reflexivity].
Defined.

(** X8 at ["Hi ${a} ${b} ${c}"] with [{a: "1"}]: the error names [b]. *)
Lemma first_unresolved_placeholder_is_named_witness :
  fst (getFileContent "t.tt" (Some {[ "a" := VString "1" ]})
         (started (one_file "t.tt" "Hi ${a} ${b} ${c}"))) =
  Throw (ReferenceError "b").
Proof.
  apply (first_unresolved_placeholder_is_named
           (started (one_file "t.tt" "Hi ${a} ${b} ${c}")) "t.tt"
           "Hi ${a} ${b} ${c}" {[ "a" := VString "1" ]}
           [Lit "Hi "; Var "a"; Lit " "]
           [Lit " "; Var "c"; Lit ""] "b");
    try reflexivity.
  intros y Hy. exists (VString "1"). split; [|reflexivity]. left.
  apply elem_of_cons in Hy as [Hy|Hy]; [discriminate Hy|].
  apply elem_of_cons in Hy as [Hy|Hy].
  - injection Hy as ->. reflexivity.
  - apply elem_of_cons in Hy as [Hy|Hy]; [discriminate Hy|].
    apply elem_of_nil in Hy. destruct Hy.
Defined.

(** X10 on a file that can be read and not opened for writing. *)
Lemma failed_edit_keeps_files_witness :
  disk (snd (insertToFile "index.js" "X" tt
               (started (read_only "index.js" "ANCHOR")))) =
  disk (started (read_only "index.js" "ANCHOR")).
Proof.
  destruct (failed_edit_keeps_files (H := libraries) "index.js" "X" tt
              (started (read_only "index.js" "ANCHOR"))
              (SystemError "EACCES")) as [Hins _].
  destruct (Hins eq_refl) as [Hd|(text & v & s & _ & _ & _ & Hf)].
  - exact Hd.
  - discriminate Hf.
Defined.

(** X12 at [./client/modules]. *)
Lemma createDir_notifies_after_creating_witness :
  calls (snd (createDir "./client/modules" (fresh_run no_file))) =
  [logger_create "client/modules/"; mkdirsSync_call "./client/modules"].
Proof.
  destruct (createDir_notifies_after_creating "./client/modules"
              (fresh_run no_file)) as [_ Hok].
  destruct (Hok eq_refl) as (d & [Hd|[Hs _]] & _ & Hcalls).
  - change ("./" +:+ d) with (String "." (String "/" d)) in Hd.
    injection Hd as <-. exact Hcalls.
  - discriminate Hs.
Defined.




End MoreRuns.
